(** * Tool provisioning, agent life cycle and streaming reducer

    A shallow embedding of the core of the chat application:
    - [app.py]: [fetch_tool_manifest], [download_tool],
      [install_dependencies], [initialize_agent], [shutdown] and the
      [generate] reducer of the [/ask] route;
    - [models/agent.py]: [create_agent] and [get_conversation_history].

    Python exceptions are values of [exn]; a computation that may raise
    returns a [result]; code that touches the process (the MongoDB
    collection, the [temp_tools] directory, the network, the global
    [agent]) threads a [state] and may raise, in the monad [M]. *)

From Stdlib Require Import ZArith Lia.
From stdpp Require Import base option list strings pretty gmap fin_maps.

Open Scope string_scope.
Open Scope list_scope.

(** ** Python preliminaries *)

(** The exception classes the program raises or catches. [Exception] is the
    builtin base class as raised by [raise Exception(...)]; every other
    constructor is a subclass of it, so [except Exception] catches them all.
    [RequestException] stands for [requests.exceptions.RequestException]
    and its subclasses (connection errors, timeouts, [HTTPError] and the
    JSON decoding error of [Response.json]); [TimeoutError] is the builtin
    that [asyncio.TimeoutError] names. *)
Inductive exn : Type :=
  | Exception (msg : string)
  | RequestException (msg : string)
  | KeyError (key : string)
  | IndexError (msg : string)
  | TypeError (msg : string)
  | AttributeError (msg : string)
  | UnboundLocalError (var : string)
  | CalledProcessError (msg : string)
  | ConnectionFailure (msg : string)
  | TimeoutError.

(** [str(e)]. *)
Definition exn_str (e : exn) : string :=
  match e with
  | Exception m | RequestException m | IndexError m | TypeError m
  | AttributeError m | CalledProcessError m | ConnectionFailure m => m
  | KeyError k => "'" +:+ k +:+ "'"
  | TimeoutError => ""
  | UnboundLocalError v =>
      "cannot access local variable '" +:+ v
        +:+ "' where it is not associated with a value"
  end.

Inductive result (A : Type) : Type :=
  | Raise (e : exn)
  | Return (a : A).
Arguments Raise {A} e.
Arguments Return {A} a.

Definition rbind {A B} (r : result A) (k : A -> result B) : result B :=
  match r with
  | Raise e => Raise e
  | Return a => k a
  end.

(** [d[key]] on an optional field: [KeyError] when the key is absent. *)
Definition subscript {A} (key : string) (o : option A) : result A :=
  match o with
  | Some a => Return a
  | None => Raise (KeyError key)
  end.

(** [''.join(l)]. *)
Definition join (l : list string) : string := foldr String.append "" l.

Definition newline : string := String (Ascii.ascii_of_nat 10) EmptyString.

(** ** Data model *)

(** The parsed [manifest.json] of a tool. A key the registry leaves out is
    [None]. *)
Record manifest : Type := {
  m_version : option string;
  m_file : option string;
  m_transport : option string;
  m_dependencies : option (list string);
  m_url : option string
}.

(** What [Response.json()] returns: a JSON object read as a manifest, or
    some other JSON value (a list, a number, ...). *)
Inductive json_doc : Type :=
  | JObject (m : manifest)
  | JOther.

(** An HTTP response as [requests] presents it. [json] is [inl msg] when
    the body is not valid JSON ([msg] is the decoder's message). *)
Record response : Type := {
  status_code : Z;
  reason : string;
  content : string;
  json : string + json_doc
}.

(** Outcome of [requests.get]: the request itself fails (no connection,
    time-out after 10 seconds, ...) or a response arrives. *)
Inductive http_result : Type :=
  | HttpFailed (msg : string)
  | HttpResponse (r : response).

(** An entry of [tool_config.tools] in the user's document. *)
Record tool_ref : Type := {
  name : string;
  github_url : option string;
  url : option string
}.

(** The user's document in the [users] collection. *)
Record user_config : Type := {
  tools : list tool_ref;
  instructions : string;
  env_vars : gmap string (gmap string string);
  selected_model : option string;
  tool_versions : gmap string string
}.

(** The connection parameters handed to [MultiServerMCPClient]: the
    [tool_config] dictionaries of [initialize_agent] without their
    ["name"] key. *)
Inductive connection : Type :=
  | Stdio (command : string) (args : list string) (env : gmap string string)
  | Sse (sse_url : option string).

(** A [tool_config] dictionary of [initialize_agent]. *)
Record tool_config : Type := {
  tc_name : string;
  tc_connection : connection
}.

(** The model object built by [create_agent]. Both constructors are called
    with [temperature=0.1]. *)
Inductive backend : Type :=
  | ChatAnthropic (model : string) (max_tokens : Z)
  | ChatOpenAI (model : string) (max_tokens : Z).

(** The object returned by [create_agent]: the react agent with its
    [get_tools] and [_client] attributes. A client is identified by the
    order in which the process created it. *)
Record agent_handle : Type := {
  ag_model : backend;
  ag_tools : list string;
  ag_prompt : string;
  ag_client : option nat
}.

(** *** Conversation checkpoints *)

(** An item of a list-valued message content: a content block (a
    dictionary such as [{"type": "text", "text": ...}]) or a plain string. *)
Inductive content_item : Type :=
  | ItemStr (s : string)
  | ItemDict (d : gmap string string).

(** [message.content]: a string or a list of items. *)
Inductive msg_content : Type :=
  | CStr (s : string)
  | CList (l : list content_item).

(** A message as stored in a checkpoint: its [type] (["human"], ["ai"],
    ["tool"], ...) and its [content]. *)
Record ck_message : Type := {
  msg_type : string;
  msg_body : msg_content
}.

(** The value [checkpointer.get] returns for a thread that has a
    checkpoint: a dictionary whose ["messages"] key may be missing. *)
Record ck_state : Type := {
  ck_messages : option (list ck_message)
}.

(** An entry [{"role": ..., "content": ...}] of the history list. *)
Record hist_entry : Type := {
  role : string;
  text : string
}.

(** *** What the agent streams *)

(** An element of [message.tool_calls]: its ["name"] and its [str()]. *)
Record tool_call : Type := {
  call_name : string;
  call_str : string
}.

(** An [AIMessage] or [AIMessageChunk]. The lists of invalid tool calls,
    tool-call chunks and legacy tool calls hold the [str()] of their
    elements; an attribute the object lacks is the empty list, and
    [kw_tool_calls] is [None] when [additional_kwargs] has no
    ["tool_calls"] key. *)
Record ai_message : Type := {
  ai_content : msg_content;
  tool_calls : list tool_call;
  invalid_tool_calls : list string;
  tool_call_chunks : list string;
  kw_tool_calls : option (list string)
}.

Inductive message : Type :=
  | AIMsg (m : ai_message)
  | ToolMsg (content_str : string)
  | OtherMsg.

(** A chunk of [astream_graph]: a dictionary with the messages of the
    ["agent"] node, or anything else. *)
Inductive chunk : Type :=
  | AgentChunk (msgs : list message)
  | OtherChunk.

(** How the iteration over [astream_graph] ends after the chunks it
    delivered: the stream is exhausted, the deadline of [asyncio.timeout]
    fires while the next chunk is awaited, or the agent raises. *)
Inductive stream_end : Type :=
  | StreamDone
  | StreamTimeout
  | StreamRaise (e : exn).

Record agent_stream : Type := {
  chunks : list chunk;
  ending : stream_end
}.

(** An event of the response stream: the dictionary that [generate]
    serialises into one [data: ...] frame. *)
Inductive event : Type :=
  | TextDelta (cumulative_text : string)
  | ToolDelta (cumulative_tool : string) (tool_label : option string)
  | Error (msg : string).

(** ** Process state *)

(** What the process did to the outside world, oldest first. *)
Inductive effect : Type :=
  | ManifestGet (target : string)
  | ArtifactGet (target : string)
  | PipInstall (deps : list string)
  | ClientEnter (id : nat)
  | ClientExit (id : nat).

Record state : Type := {
  users_collection : gmap string user_config;
  temp_tools : gset string;
  checkpointer : gmap string ck_state;
  agent : option agent_handle;
  tool_count : option nat;
  live_clients : gmap nat (gmap string connection);
  next_client : nat;
  trace : list effect
}.

(** ** The monad of effectful code: state passing with exceptions *)

Definition M (A : Type) : Type := state -> result A * state.

Definition ret {A} (a : A) : M A := fun s => (Return a, s).

Definition raise {A} (e : exn) : M A := fun s => (Raise e, s).

Definition bind {A B} (c : M A) (k : A -> M B) : M B :=
  fun s =>
    match c s with
    | (Raise e, s') => (Raise e, s')
    | (Return a, s') => k a s'
    end.

Definition lift {A} (r : result A) : M A := fun s => (r, s).

Definition gets {A} (f : state -> A) : M A := fun s => (Return (f s), s).

Definition modify (f : state -> state) : M unit := fun s => (Return tt, f s).

(** [try: c except Exception as e: h e]. *)
Definition try_except {A} (c : M A) (h : exn -> M A) : M A :=
  fun s =>
    match c s with
    | (Raise e, s') => h e s'
    | (Return a, s') => (Return a, s')
    end.

Notation "'let*' x ':=' c 'in' k" := (bind c (fun x => k))
  (at level 10, x pattern, c at level 100, k at level 200).
Notation "'do' c 'then' k" := (bind c (fun _ => k))
  (at level 10, c at level 100, k at level 200).

Definition log (e : effect) : M unit :=
  modify (fun s =>
    {| users_collection := users_collection s; temp_tools := temp_tools s;
       checkpointer := checkpointer s; agent := agent s;
       tool_count := tool_count s; live_clients := live_clients s;
       next_client := next_client s; trace := trace s ++ [e] |}).

Definition set_users (u : gmap string user_config) (s : state) : state :=
  {| users_collection := u; temp_tools := temp_tools s;
     checkpointer := checkpointer s; agent := agent s;
     tool_count := tool_count s; live_clients := live_clients s;
     next_client := next_client s; trace := trace s |}.

Definition set_temp_tools (f : gset string) (s : state) : state :=
  {| users_collection := users_collection s; temp_tools := f;
     checkpointer := checkpointer s; agent := agent s;
     tool_count := tool_count s; live_clients := live_clients s;
     next_client := next_client s; trace := trace s |}.

Definition set_agent (a : option agent_handle) (s : state) : state :=
  {| users_collection := users_collection s; temp_tools := temp_tools s;
     checkpointer := checkpointer s; agent := a;
     tool_count := tool_count s; live_clients := live_clients s;
     next_client := next_client s; trace := trace s |}.

Definition set_tool_count (n : option nat) (s : state) : state :=
  {| users_collection := users_collection s; temp_tools := temp_tools s;
     checkpointer := checkpointer s; agent := agent s;
     tool_count := n; live_clients := live_clients s;
     next_client := next_client s; trace := trace s |}.

Definition set_live_clients (c : gmap nat (gmap string connection))
    (s : state) : state :=
  {| users_collection := users_collection s; temp_tools := temp_tools s;
     checkpointer := checkpointer s; agent := agent s;
     tool_count := tool_count s; live_clients := c;
     next_client := next_client s; trace := trace s |}.

Definition set_next_client (n : nat) (s : state) : state :=
  {| users_collection := users_collection s; temp_tools := temp_tools s;
     checkpointer := checkpointer s; agent := agent s;
     tool_count := tool_count s; live_clients := live_clients s;
     next_client := n; trace := trace s |}.

(** ** Constants of [app.py] *)

Definition TOOL_MARKET_URL : string :=
  "https://raw.githubusercontent.com/meghanshram/ToolMarket/main".

Definition SYSTEM_PROMPT : string :=
  "<ROLE>You are a smart agent with an ability to use tools... (same as Streamlit app) ... </OUTPUT_FORMAT>".

(** [f"temp_tools/{tool_name}/{file_name}"]. *)
Definition artifact_path (tool_name file_name : string) : string :=
  "temp_tools/" +:+ tool_name +:+ "/" +:+ file_name.

(** [f"{github_url}/tools/{tool_name}/{file_name}"]. *)
Definition registry_url (base tool_name file_name : string) : string :=
  base +:+ "/tools/" +:+ tool_name +:+ "/" +:+ file_name.

(** [Response.json()]: the decoding error is a [RequestException]. *)
Definition response_json (r : response) : result json_doc :=
  match json r with
  | inl msg => Raise (RequestException msg)
  | inr d => Return d
  end.

(** [Response.raise_for_status()]: an [HTTPError] for 4xx and 5xx. *)
Definition raise_for_status (target : string) (r : response) : result unit :=
  if (400 <=? status_code r)%Z && (status_code r <? 500)%Z then
    Raise (RequestException (pretty (status_code r) +:+ " Client Error: "
             +:+ reason r +:+ " for url: " +:+ target))
  else if (500 <=? status_code r)%Z && (status_code r <? 600)%Z then
    Raise (RequestException (pretty (status_code r) +:+ " Server Error: "
             +:+ reason r +:+ " for url: " +:+ target))
  else Return tt.

(** ** The program *)

Section Program.

(** The outside world: the registry behind [requests.get], the hash
    function, [pip], and the tool servers behind the MCP client. *)
Variable requests_get : string -> http_result.
Variable sha256_hexdigest : string -> string.
Variable pip_install : list string -> option string.
Variable mcp_enter : gmap string connection -> result (list string).
Variable mcp_exit : nat -> option exn.

(** [requests.get(url, headers=GITHUB_HEADERS, timeout=10)]. *)
Definition http_get (mk : string -> effect) (target : string) : M response :=
  do log (mk target) then
  match requests_get target with
  | HttpFailed msg => raise (RequestException msg)
  | HttpResponse r => ret r
  end.

(** *** Tool registry client ([app.py], lines 101-137) *)

Definition fetch_tool_manifest (tool_name base : string) : M json_doc :=
  let target := registry_url base tool_name "manifest.json" in
  try_except
    (let* r := http_get ManifestGet target in
     let* _ := lift (response_json r) in
     let* _ := lift (raise_for_status target r) in
     if decide (status_code r = 200%Z) then lift (response_json r)
     else raise (Exception ("Unexpected status code "
                   +:+ pretty (status_code r)
                   +:+ " when fetching manifest for " +:+ tool_name)))
    (fun e =>
       match e with
       | RequestException m =>
           raise (Exception ("Failed to fetch manifest for " +:+ tool_name
                    +:+ ": " +:+ m))
       | _ => raise e
       end).

Definition download_tool (tool_name file_name base : string) : M string :=
  let target := registry_url base tool_name file_name in
  try_except
    (let* r := http_get ArtifactGet target in
     let* _ := lift (raise_for_status target r) in
     if decide (status_code r = 200%Z) then
       let checksum := sha256_hexdigest (content r) in
       do modify (fun s =>
            set_temp_tools
              ({[ artifact_path tool_name file_name ]} ∪ temp_tools s) s)
       then ret checksum
     else raise (Exception ("Unexpected status code "
                   +:+ pretty (status_code r) +:+ " when downloading "
                   +:+ file_name +:+ " for " +:+ tool_name)))
    (fun e =>
       match e with
       | RequestException m =>
           raise (Exception ("Failed to download " +:+ file_name +:+ " for "
                    +:+ tool_name +:+ ": " +:+ m))
       | _ => raise e
       end).

Definition install_dependencies (dependencies : list string) : M unit :=
  match dependencies with
  | [] => ret tt
  | _ =>
      do log (PipInstall dependencies) then
      match pip_install dependencies with
      | Some msg => raise (CalledProcessError msg)
      | None => ret tt
      end
  end.

(** *** User settings ([app.py], lines 80-99) *)

Definition default_config : user_config :=
  {| tools := []; instructions := ""; env_vars := ∅;
     selected_model := Some "gpt-4o"; tool_versions := ∅ |}.

Definition load_user_config (user_id : string) : M user_config :=
  let* users := gets users_collection in
  match users !! user_id with
  | Some user_data => ret user_data
  | None =>
      do modify (set_users (<[user_id := default_config]> users)) then
      ret default_config
  end.

Definition save_user_config (user_id : string) (config : user_config)
    : M unit :=
  modify (fun s => set_users (<[user_id := config]> (users_collection s)) s).

(** *** Tool materialisation ([initialize_agent], lines 155-219) *)

(** The locals of [initialize_agent] that the [for tool in tools] loop
    reads and assigns. [l_tool_config] is [None] while the variable
    [tool_config] is unbound. *)
Record locals : Type := {
  l_updated_tools : list tool_config;
  l_tool_versions : gmap string string;
  l_tool_config : option tool_config
}.

(** [shutil.rmtree(temp_base_dir)] and [os.makedirs]. *)
Definition clear_temp_tools : M unit := modify (set_temp_tools ∅).

Definition stdio_config (config : user_config) (tool_name file_name : string)
    : tool_config :=
  {| tc_name := tool_name;
     tc_connection :=
       Stdio "python" [artifact_path tool_name file_name]
             (default ∅ (env_vars config !! tool_name)) |}.

(** [tool.get('url', manifest.get('url'))]. *)
Definition sse_config (tool : tool_ref) (m : manifest) : tool_config :=
  {| tc_name := name tool;
     tc_connection :=
       Sse (match url tool with Some u => Some u | None => m_url m end) |}.

Definition bind_config (tc : tool_config) (versions : gmap string string)
    (loc : locals) : locals :=
  {| l_updated_tools := l_updated_tools loc;
     l_tool_versions := versions;
     l_tool_config := Some tc |}.

(** Lines 172-216: the body of the [try] block once the manifest [m] is
    fetched. No local is assigned before the last statement that can
    raise, so when the block raises the locals are those the iteration
    started with. *)
Definition prepare_tool (config : user_config) (tool : tool_ref) (m : manifest)
    (loc : locals) : M locals :=
  let tool_name := name tool in
  let base := default TOOL_MARKET_URL (github_url tool) in
  let* current_version := lift (subscript "version" (m_version m)) in
  let cached_version := default "0.0.0" (l_tool_versions loc !! tool_name) in
  let* stale :=
    if decide (current_version ≠ cached_version) then ret true
    else
      let* file_name := lift (subscript "file" (m_file m)) in
      let* files := gets temp_tools in
      ret (negb (bool_decide (artifact_path tool_name file_name ∈ files))) in
  let* transport := lift (subscript "transport" (m_transport m)) in
  let* loc' :=
    if stale then
      if decide (transport = "stdio") then
        let* file_name := lift (subscript "file" (m_file m)) in
        let* _ := download_tool tool_name file_name base in
        do install_dependencies (default [] (m_dependencies m)) then
        ret (bind_config (stdio_config config tool_name file_name)
               (<[tool_name := current_version]> (l_tool_versions loc)) loc)
      else if decide (transport = "sse") then
        ret (bind_config (sse_config tool m)
               (<[tool_name := current_version]> (l_tool_versions loc)) loc)
      else ret loc
    else
      if decide (transport = "stdio") then
        let* file_name := lift (subscript "file" (m_file m)) in
        ret (bind_config (stdio_config config tool_name file_name)
               (l_tool_versions loc) loc)
      else if decide (transport = "sse") then
        ret (bind_config (sse_config tool m) (l_tool_versions loc) loc)
      else ret loc in
  match l_tool_config loc' with
  | None => raise (UnboundLocalError "tool_config")
  | Some tc =>
      ret {| l_updated_tools := l_updated_tools loc' ++ [tc];
             l_tool_versions := l_tool_versions loc';
             l_tool_config := l_tool_config loc' |}
  end.

(** Lines 170-216: the body of the [try] block for one tool. Subscripting
    a manifest that is not a JSON object raises. *)
Definition pull_tool (config : user_config) (tool : tool_ref) (loc : locals)
    : M locals :=
  let* doc := fetch_tool_manifest (name tool)
                (default TOOL_MARKET_URL (github_url tool)) in
  match doc with
  | JObject m => prepare_tool config tool m loc
  | JOther => raise (TypeError "list indices must be integers or slices, not str")
  end.

(** [for tool in tools: try: ... except Exception as e: print(...);
    continue]. *)
Fixpoint pull_tools (config : user_config) (ts : list tool_ref)
    (loc : locals) : M locals :=
  match ts with
  | [] => ret loc
  | tool :: rest =>
      let* loc' := try_except (pull_tool config tool loc)
                              (fun _ => ret loc) in
      pull_tools config rest loc'
  end.

(** The [connections] dictionary built from [updated_tools]
    (lines 222-227). *)
Definition connections_of (updated : list tool_config)
    : gmap string connection :=
  foldl (fun acc tc => <[tc_name tc := tc_connection tc]> acc) ∅ updated.

(** *** Agent construction ([models/agent.py], [create_agent]) *)

(** [client = MultiServerMCPClient(mcp_config)]: a new client object. *)
Definition new_client : M nat :=
  let* id := gets next_client in
  do modify (set_next_client (S id)) then
  ret id.

(** [await client.__aenter__()] followed by [client.get_tools()]. *)
Definition client_aenter (id : nat) (mcp_config : gmap string connection)
    : M (list string) :=
  match mcp_enter mcp_config with
  | Raise e => raise e
  | Return caps =>
      do log (ClientEnter id) then
      do modify (fun s =>
           set_live_clients (<[id := mcp_config]> (live_clients s)) s) then
      ret caps
  end.

(** [await client.__aexit__(None, None, None)]. *)
Definition client_aexit (id : nat) : M unit :=
  match mcp_exit id with
  | Some e => raise e
  | None =>
      do log (ClientExit id) then
      modify (fun s => set_live_clients (delete id (live_clients s)) s)
  end.

Definition select_model (selected : string) : backend :=
  if String.prefix "claude" selected then ChatAnthropic selected 8192
  else ChatOpenAI selected 16000.

Definition create_agent (mcp_config : gmap string connection)
    (selected : string) (prompt : string) (use_mcp : bool)
    : M agent_handle :=
  let* (caps, client) :=
    if negb use_mcp then ret ([], None)
    else
      let* id := new_client in
      let* caps := client_aenter id mcp_config in
      ret (caps, Some id) in
  let model := select_model selected in
  ret {| ag_model := model; ag_tools := caps; ag_prompt := prompt;
         ag_client := client |}.

(** *** [initialize_agent] and [shutdown] ([app.py], lines 140-273) *)

Definition updated_prompt (config : user_config) : string :=
  if decide (instructions config = "") then SYSTEM_PROMPT
  else SYSTEM_PROMPT +:+ newline +:+ newline +:+ instructions config.

Definition with_tool_versions (config : user_config)
    (versions : gmap string string) : user_config :=
  {| tools := tools config; instructions := instructions config;
     env_vars := env_vars config; selected_model := selected_model config;
     tool_versions := versions |}.

Definition start_locals (config : user_config) : locals :=
  {| l_updated_tools := []; l_tool_versions := tool_versions config;
     l_tool_config := None |}.

(** Lines 146-233: everything up to the creation of the agent. It
    returns the [mcp_config] dictionary handed to [create_agent]. *)
Definition materialize (user_id : string)
    : M (user_config * gmap string connection) :=
  let* config := load_user_config user_id in
  do clear_temp_tools then
  let* loc := pull_tools config (tools config) (start_locals config) in
  let mcp_config := connections_of (l_updated_tools loc) in
  let config' := with_tool_versions config (l_tool_versions loc) in
  do save_user_config user_id config' then
  ret (config', mcp_config).

(** The outer [try ... except Exception: print(...); raise] re-raises
    what it catches. *)
Definition initialize_agent (user_id : string) : M unit :=
  let* (config, mcp_config) := materialize user_id in
  let selected := default "gpt-4o" (selected_model config) in
  let* agent_instance :=
    if bool_decide (mcp_config = ∅) then
      create_agent mcp_config selected (updated_prompt config) false
    else
      create_agent mcp_config selected (updated_prompt config) true in
  do modify (set_tool_count (Some (length (ag_tools agent_instance)))) then
  modify (set_agent (Some agent_instance)).

Definition shutdown : M unit :=
  let* current := gets agent in
  do match current with
     | Some a =>
         try_except
           (match ag_client a with
            | Some id => client_aexit id
            | None => ret tt
            end)
           (fun _ => ret tt)
     | None => ret tt
     end then
  modify (set_agent None).

End Program.

(** ** Conversation history ([models/agent.py], lines 48-66) *)

(** The generator [item["text"] for item in content if item["type"] ==
    "text"], consumed in order: the first failing subscript raises. *)
Fixpoint text_items (items : list content_item) : result (list string) :=
  match items with
  | [] => Return []
  | ItemStr _ :: _ =>
      Raise (TypeError "string indices must be integers, not 'str'")
  | ItemDict d :: rest =>
      rbind (subscript "type" (d !! "type")) (fun ty =>
        if decide (ty = "text") then
          rbind (subscript "text" (d !! "text")) (fun t =>
            rbind (text_items rest) (fun ts => Return (t :: ts)))
        else text_items rest)
  end.

Definition history_entry (msg : ck_message) : result hist_entry :=
  let r := if decide (msg_type msg = "human") then "user" else "assistant" in
  match msg_body msg with
  | CStr s => Return {| role := r; text := s |}
  | CList items =>
      rbind (text_items items) (fun ts =>
        Return {| role := r; text := join ts |})
  end.

(** The [for msg in state.get("messages", [])] loop. *)
Fixpoint history_entries (msgs : list ck_message) : result (list hist_entry) :=
  match msgs with
  | [] => Return []
  | msg :: rest =>
      rbind (history_entry msg) (fun e =>
        rbind (history_entries rest) (fun es => Return (e :: es)))
  end.

Definition get_conversation_history (cp : gmap string ck_state)
    (thread_id : string) : list hist_entry :=
  match cp !! thread_id with
  | None => []
  | Some st =>
      match history_entries (default [] (ck_messages st)) with
      | Return messages => messages
      | Raise _ => []
      end
  end.

(** ** The streaming reducer ([generate] in the [/ask] route,
       [app.py], lines 328-400) *)

Record buffers : Type := {
  accumulated_text : list string;
  accumulated_tool : list string
}.

(** The state of the generator after some statements: its buffers, the
    events it yielded in order, and the exception that stopped it, if any. *)
Record reduction : Type := {
  bufs : buffers;
  emitted : list event;
  raised : option exn
}.

Definition red_ok (b : buffers) (evs : list event) : reduction :=
  {| bufs := b; emitted := evs; raised := None |}.

Definition red_raise (b : buffers) (e : exn) : reduction :=
  {| bufs := b; emitted := []; raised := Some e |}.

(** Sequencing: the continuation runs only if nothing was raised. *)
Definition red_then (r : reduction) (k : buffers -> reduction) : reduction :=
  match raised r with
  | Some _ => r
  | None =>
      let r' := k (bufs r) in
      {| bufs := bufs r'; emitted := emitted r ++ emitted r';
         raised := raised r' |}
  end.

(** [for x in l: body]. *)
Fixpoint for_each {A} (body : A -> buffers -> reduction) (l : list A)
    (b : buffers) : reduction :=
  match l with
  | [] => red_ok b []
  | x :: rest => red_then (body x b) (for_each body rest)
  end.

(** [accumulated_text.append(fragment)] and the [yield] of the joined
    text. *)
Definition append_text (fragment : string) (b : buffers) : reduction :=
  let b' := {| accumulated_text := accumulated_text b ++ [fragment];
               accumulated_tool := accumulated_tool b |} in
  red_ok b' [TextDelta (join (accumulated_text b'))].

(** The fenced block appended to [accumulated_tool] around [str(x)]. *)
Definition fenced (s : string) : string :=
  newline +:+ "```json" +:+ newline +:+ s +:+ newline +:+ "```" +:+ newline.

Definition append_tool (s : string) (label : option string) (b : buffers)
    : reduction :=
  let b' := {| accumulated_text := accumulated_text b;
               accumulated_tool := accumulated_tool b ++ [fenced s] |} in
  red_ok b' [ToolDelta (join (accumulated_tool b')) label].

(** The body of [for item in content] (lines 358-364). *)
Definition process_item (item : content_item) (b : buffers) : reduction :=
  match item with
  | ItemStr _ =>
      red_raise b (AttributeError "'str' object has no attribute 'get'")
  | ItemDict d =>
      if decide (d !! "type" = Some "text") then
        match d !! "text" with
        | Some t => append_text t b
        | None => red_raise b (KeyError "text")
        end
      else if decide (d !! "type" = Some "tool_use") then
        append_tool (default "" (d !! "partial_json")) None b
      else red_ok b []
  end.

(** The last three branches of the [elif] chain (lines 369-380): invalid
    tool calls, tool-call chunks, then the legacy ["tool_calls"] entry of
    [additional_kwargs]. *)
Definition process_other_metadata (m : ai_message) (b : buffers) : reduction :=
  match invalid_tool_calls m with
  | inv :: _ => append_tool inv (Some "Invalid Tool Call") b
  | [] =>
      match tool_call_chunks m with
      | ch :: _ => append_tool ch None b
      | [] =>
          match kw_tool_calls m with
          | Some (kw :: _) => append_tool kw None b
          | Some [] => red_raise b (IndexError "list index out of range")
          | None => red_ok b []
          end
      end
  end.

(** The [elif] chain over the tool-call attributes (lines 365-380),
    reached when the content is neither a non-empty string nor a non-empty
    list. The first test also asks for a non-empty name. *)
Definition process_tool_metadata (m : ai_message) (b : buffers) : reduction :=
  match tool_calls m with
  | tc :: _ =>
      if decide (0 < String.length (call_name tc))%nat then
        append_tool (call_str tc) None b
      else process_other_metadata m b
  | [] => process_other_metadata m b
  end.

Definition process_ai_message (m : ai_message) (b : buffers) : reduction :=
  match ai_content m with
  | CStr s =>
      if decide (s = "") then process_tool_metadata m b else append_text s b
  | CList items =>
      match items with
      | [] => process_tool_metadata m b
      | _ => for_each process_item items b
      end
  end.

(** The body of [for message in chunk['agent']['messages']]. *)
Definition process_message (msg : message) (b : buffers) : reduction :=
  match msg with
  | AIMsg m => process_ai_message m b
  | ToolMsg c => append_tool c (Some "Tool Response") b
  | OtherMsg => red_ok b []
  end.

(** The body of [async for chunk in astream_graph(...)]. *)
Definition process_chunk (c : chunk) (b : buffers) : reduction :=
  match c with
  | AgentChunk msgs => for_each process_message msgs b
  | OtherChunk => red_ok b []
  end.

Definition no_buffers : buffers :=
  {| accumulated_text := []; accumulated_tool := [] |}.

(** What one call of [generate] leaves behind: the events it yielded and
    the final value of its local [history] ([None] while that variable is
    unbound). *)
Record gen_result : Type := {
  events : list event;
  history : option (list hist_entry)
}.

(** Lines 385-392, run when the [async with] block ends normally. The list
    returned by [get_conversation_history] is a new list. *)
Definition completion (cp : gmap string ck_state) (thread_id query : string)
    (b : buffers) : list hist_entry :=
  let final_text := join (accumulated_text b) in
  let final_tool := join (accumulated_tool b) in
  get_conversation_history cp thread_id
    ++ [ {| role := "user"; text := query |} ]
    ++ (if decide (final_text = "") then []
        else [ {| role := "assistant"; text := final_text |} ])
    ++ (if decide (final_tool = "") then []
        else [ {| role := "assistant_tool"; text := final_tool |} ]).

(** The exception, if any, that leaves the [async with] block: one raised
    while a delivered chunk was reduced, else the one that ended the
    iteration. *)
Definition block_exit (r : reduction) (e : stream_end) : option exn :=
  match raised r with
  | Some x => Some x
  | None =>
      match e with
      | StreamDone => None
      | StreamTimeout => Some TimeoutError
      | StreamRaise x => Some x
      end
  end.

(** [generate]: [run] is what [astream_graph(agent, ...)] delivers for this
    query under the deadline [timeout_seconds]. The function reads the
    global [agent] and the checkpointer and assigns neither. *)
Definition generate (query thread_id : string) (timeout_seconds : Z)
    (run : agent_stream) (s : state) : gen_result * state :=
  match agent s with
  | None =>
      ({| events := [Error "Agent has not been initialized."];
          history := None |}, s)
  | Some _ =>
      let r := for_each process_chunk (chunks run) no_buffers in
      match block_exit r (ending run) with
      | None =>
          ({| events := emitted r;
              history := Some (completion (checkpointer s) thread_id query
                                 (bufs r)) |}, s)
      | Some TimeoutError =>
          ({| events := emitted r
                ++ [Error ("Request timed out after "
                           +:+ pretty timeout_seconds +:+ " seconds")];
              history := None |}, s)
      | Some e =>
          ({| events := emitted r
                ++ [Error ("Error occurred during query processing: "
                           +:+ exn_str e)];
              history := None |}, s)
      end
  end.

(** ** Vocabulary of the properties *)

Definition text_payload (e : event) : option string :=
  match e with TextDelta t => Some t | _ => None end.

Definition tool_payload (e : event) : option string :=
  match e with ToolDelta t _ => Some t | _ => None end.

Definition text_payloads (evs : list event) : list string :=
  omap text_payload evs.

Definition tool_payloads (evs : list event) : list string :=
  omap tool_payload evs.

(** A chain of payloads that starts from [start]: each one extends the one
    before it. *)
Fixpoint prefix_chain (start : string) (payloads : list string) : Prop :=
  match payloads with
  | [] => True
  | p :: rest => (exists fragment, p = start +:+ fragment) /\ prefix_chain p rest
  end.

(** A reducer keeps a channel in step with its buffer: the payloads it
    emits on the channel form a chain from the join of the buffer it
    starts with to the join of the buffer it ends with. *)
Definition tracks (payload : event -> option string)
    (buffer : buffers -> list string) (f : buffers -> reduction) : Prop :=
  forall b,
    prefix_chain (join (buffer b)) (omap payload (emitted (f b))) /\
    default (join (buffer b)) (last (omap payload (emitted (f b))))
      = join (buffer (bufs (f b))).

(** Each payload is the one before it with a fragment appended. *)
Definition prefix_monotone (payloads : list string) : Prop :=
  forall (i : nat) (p q : string),
    payloads !! i = Some p -> payloads !! S i = Some q ->
    exists fragment, q = p +:+ fragment.

Definition is_error (e : event) : bool :=
  match e with Error _ => true | _ => false end.

Definition error_count (evs : list event) : nat :=
  length (filter (fun e => is_error e = true) evs).

(** A reducer that yields no [Error] event. *)
Definition silent (f : buffers -> reduction) : Prop :=
  forall b, error_count (emitted (f b)) = 0.


Definition starts_with (p s : string) : Prop := exists rest, s = p +:+ rest.

(** The thread of a conversation as the application reads it. *)
Definition thread (s : state) (thread_id : string) : list hist_entry :=
  get_conversation_history (checkpointer s) thread_id.

(** *** History retrieval, in the words of its contract *)



Definition role_of (msg : ck_message) : string :=
  if decide (msg_type msg = "human") then "user" else "assistant".





(** *** Registry and materialisation *)

(** The three ways a manifest fetch fails. *)
Definition registry_failure (h : http_result) : Prop :=
  match h with
  | HttpFailed _ => True
  | HttpResponse r =>
      status_code r <> 200%Z \/ exists msg, json r = inl msg
  end.

(** The artifact file of a manifest that has a version and the [stdio]
    transport. *)
Definition manifest_stdio_file (m : manifest) : option string :=
  match m_version m, m_transport m with
  | Some _, Some tr => if decide (tr = "stdio") then m_file m else None
  | _, _ => None
  end.

Definition artifact_gets (tr : list effect) : list string :=
  omap (fun e => match e with ArtifactGet t => Some t | _ => None end) tr.

(** The addresses of the artifacts the process has requested so far. *)
Definition downloads (s : state) : list string := artifact_gets (trace s).

(** The configuration [load_user_config] returns in a state. *)
Definition loaded_config (s : state) (user_id : string) : user_config :=
  default default_config (users_collection s !! user_id).

Definition client_exits (tr : list effect) : list nat :=
  omap (fun e => match e with ClientExit i => Some i | _ => None end) tr.

Section Vocabulary.

Variable requests_get : string -> http_result.
Variable pip_install : list string -> option string.

Definition base_of (t : tool_ref) : string :=
  default TOOL_MARKET_URL (github_url t).

(** The manifest the registry serves for a tool, when the fetch
    succeeds with a JSON object. *)
Definition manifest_of (t : tool_ref) : option manifest :=
  match requests_get (registry_url (base_of t) (name t) "manifest.json") with
  | HttpResponse r =>
      match json r with
      | inr (JObject m) =>
          if decide (status_code r = 200%Z) then Some m else None
      | _ => None
      end
  | HttpFailed _ => None
  end.

Definition artifact_served (t : tool_ref) (file_name : string) : Prop :=
  exists r, requests_get (registry_url (base_of t) (name t) file_name)
              = HttpResponse r /\ status_code r = 200%Z.

Definition installable (deps : list string) : Prop :=
  deps = [] \/ pip_install deps = None.

(** [tc] is the [tool_config] the loop builds for [t] from the manifest
    [m]. *)
Definition built_from (config : user_config) (t : tool_ref) (m : manifest)
    (tc : tool_config) : Prop :=
  (m_transport m = Some "stdio" /\
   exists f, m_file m = Some f /\ tc = stdio_config config (name t) f)
  \/ (m_transport m = Some "sse" /\ tc = sse_config t m).

(** [tc] is the [tool_config] the loop builds for [t] from the manifest
    the registry serves. *)
Definition describes (config : user_config) (t : tool_ref)
    (tc : tool_config) : Prop :=
  exists m, manifest_of t = Some m /\ built_from config t m tc.

(** A reference for which every step succeeds: the manifest is fetched
    and complete, its transport is supported, and for [stdio] the
    artifact can be downloaded and the dependencies installed. *)
Definition tool_ok (t : tool_ref) : Prop :=
  exists m v f, manifest_of t = Some m /\ m_version m = Some v /\
    m_file m = Some f /\
    ((m_transport m = Some "stdio" /\ artifact_served t f /\
      installable (default [] (m_dependencies m)))
     \/ m_transport m = Some "sse").

(** For a tool whose manifest is a [stdio] manifest with a version and a
    file: the path of its artifact and the address it is fetched from. *)
Definition stdio_file (t : tool_ref) : option string :=
  match manifest_of t with
  | Some m => manifest_stdio_file m
  | None => None
  end.

Definition stdio_path (t : tool_ref) : option string :=
  artifact_path (name t) <$> stdio_file t.

Definition stdio_target (t : tool_ref) : option string :=
  registry_url (base_of t) (name t) <$> stdio_file t.

End Vocabulary.

(** ** Concrete inputs *)

Definition idle_state : state :=
  {| users_collection := ∅; temp_tools := ∅; checkpointer := ∅;
     agent := None; tool_count := None; live_clients := ∅;
     next_client := 0; trace := [] |}.

(** A tool-free agent, as [create_agent] builds it for ["gpt-4o"]. *)
Definition plain_agent : agent_handle :=
  {| ag_model := ChatOpenAI "gpt-4o" 16000; ag_tools := [];
     ag_prompt := SYSTEM_PROMPT; ag_client := None |}.

Definition serving_state : state := set_agent (Some plain_agent) idle_state.

(** An [AIMessage] with string content and no tool-call attribute. *)
Definition text_message (s : string) : message :=
  AIMsg {| ai_content := CStr s; tool_calls := []; invalid_tool_calls := [];
           tool_call_chunks := []; kw_tool_calls := None |}.

(** The agent answers "4" and the stream ends. *)
Definition answer_4 : agent_stream :=
  {| chunks := [AgentChunk [text_message "4"]]; ending := StreamDone |}.

(** The agent answers "4", then the deadline fires. *)
Definition stalled : agent_stream :=
  {| chunks := [AgentChunk [text_message "4"]]; ending := StreamTimeout |}.


(** A registry that serves two tools: ["clock"], a [stdio] tool at version
    1.0.0 whose artifact is [clock.py], and ["search"], an [sse] tool. Any
    other address answers 404 with a body that is not JSON. *)
Definition clock_manifest : manifest :=
  {| m_version := Some "1.0.0"; m_file := Some "clock.py";
     m_transport := Some "stdio"; m_dependencies := Some [];
     m_url := None |}.

Definition search_manifest : manifest :=
  {| m_version := Some "2.1.0"; m_file := None; m_transport := Some "sse";
     m_dependencies := None; m_url := Some "http://localhost:8000/sse" |}.

Definition ok_response (body : string) (doc : string + json_doc) : response :=
  {| status_code := 200; reason := "OK"; content := body; json := doc |}.

Definition not_found : response :=
  {| status_code := 404; reason := "Not Found"; content := "404: Not Found";
     json := inl "Expecting value: line 1 column 1 (char 0)" |}.

Definition market (target : string) : http_result :=
  if decide (target = registry_url TOOL_MARKET_URL "clock" "manifest.json")
  then HttpResponse (ok_response "" (inr (JObject clock_manifest)))
  else if decide (target = registry_url TOOL_MARKET_URL "clock" "clock.py")
  then HttpResponse (ok_response "print(1)" (inl "Expecting value"))
  else if decide (target = registry_url TOOL_MARKET_URL "search" "manifest.json")
  then HttpResponse (ok_response "" (inr (JObject search_manifest)))
  else HttpResponse not_found.

Definition no_hash (body : string) : string := "".
Definition pip_ok (deps : list string) : option string := None.
Definition servers_up (cfg : gmap string connection) : result (list string) :=
  Return ["tool"].
Definition exit_ok (id : nat) : option exn := None.

Definition tool_named (n : string) : tool_ref :=
  {| name := n; github_url := None; url := None |}.

(** A user with three tools; the registry does not know ["weather"]. *)
Definition three_tools : user_config :=
  {| tools := [tool_named "weather"; tool_named "clock"; tool_named "search"];
     instructions := ""; env_vars := ∅; selected_model := None;
     tool_versions := ∅ |}.

Definition one_user : state :=
  set_users {[ "u" := three_tools ]} idle_state.

(** The state after the login of ["u"], and after ["u"] then applies the
    settings without changing them. *)
Definition after_login : state :=
  (initialize_agent market no_hash pip_ok servers_up "u" one_user).2.

Definition after_apply : state :=
  (initialize_agent market no_hash pip_ok servers_up "u" after_login).2.

(** ** Further vocabulary *)

(** The messages of the agent node in a sequence of chunks, in order. *)
Definition messages_of (cs : list chunk) : list message :=
  concat (map (fun c => match c with AgentChunk msgs => msgs | OtherChunk => [] end) cs).

(** The message of the [Error] event that [generate] yields for an
    exception leaving the [async with] block. *)
Definition failure_message (timeout_seconds : Z) (e : exn) : string :=
  match e with
  | TimeoutError =>
      "Request timed out after " +:+ pretty timeout_seconds +:+ " seconds"
  | _ => "Error occurred during query processing: " +:+ exn_str e
  end.

(** The agent raises after it answered "4". *)
Definition crashed : agent_stream :=
  {| chunks := [AgentChunk [text_message "4"]];
     ending := StreamRaise (Exception "model overloaded") |}.

(** What the staging of an artifact does to the outside world. *)
Definition staging_effect (e : effect) : Prop :=
  match e with
  | ArtifactGet _ | PipInstall _ => True
  | _ => False
  end.

(** [s'] is [s] up to the staged files and the trace: the user documents,
    the checkpointer, the global agent, the tool count and the MCP clients
    are the same. *)
Definition same_process (s s' : state) : Prop :=
  users_collection s' = users_collection s
  /\ checkpointer s' = checkpointer s
  /\ agent s' = agent s
  /\ tool_count s' = tool_count s
  /\ live_clients s' = live_clients s
  /\ next_client s' = next_client s.

(** [s'] is [s] after some staging: the same process, with a trace that
    grew by staging effects only. *)
Definition staged_from (s s' : state) : Prop :=
  same_process s s'
  /\ exists added, trace s' = trace s ++ added /\ Forall staging_effect added.

Definition manifest_gets (tr : list effect) : list string :=
  omap (fun e => match e with ManifestGet t => Some t | _ => None end) tr.

Definition client_enters (tr : list effect) : list nat :=
  omap (fun e => match e with ClientEnter i => Some i | _ => None end) tr.

(** The address [initialize_agent] fetches the manifest of a tool from. *)
Definition manifest_target (t : tool_ref) : string :=
  registry_url (base_of t) (name t) "manifest.json".


(** An effect of the tool registry client: a manifest request or a
    staging effect. *)
Definition registry_effect (e : effect) : Prop :=
  match e with
  | ManifestGet _ | ArtifactGet _ | PipInstall _ => True
  | _ => False
  end.

(** The version the registry publishes for a tool, when its manifest is
    fetched and has one. *)
Definition manifest_version (requests_get : string -> http_result)
    (t : tool_ref) : option string :=
  match manifest_of requests_get t with
  | Some m => m_version m
  | None => None
  end.

(** ** The settings route ([app.py], lines 491-602)

    The three branches of the POST handler that change the user's
    document. Each starts, as the handler does, from
    [load_user_config(user_id)]. *)

(** What a branch answers: [settings.html] rendered with a [success] or
    an [error] message, or a redirect to the chat. *)
Inductive answer : Type :=
  | Rendered (success error : option string)
  | ToChat.

(** [s[n:]]. *)
Fixpoint string_drop (n : nat) (s : string) : string :=
  match n, s with
  | O, _ => s
  | S n', String _ s' => string_drop n' s'
  | S _, EmptyString => EmptyString
  end.

(** The loop [for key in form_data: if key.startswith('env_'):
    env_vars[key[4:]] = form_data[key]] over the fields of a form. *)
Definition form_env_vars (form : gmap string string) : gmap string string :=
  list_to_map
    (omap (fun kv : string * string =>
             if String.prefix "env_" kv.1
             then Some (string_drop 4 kv.1, kv.2) else None)
          (map_to_list form)).

(** The branch ['submit_env_vars'] (lines 547-567): the variables of the
    form replace those stored for the tool, and the tool is appended. *)
Definition submit_env_vars (user_id : string) (form : gmap string string)
    : M answer :=
  let* config := load_user_config user_id in
  let* tool_name := lift (subscript "tool_name" (form !! "tool_name")) in
  let* base := lift (subscript "github_url" (form !! "github_url")) in
  let config' :=
    {| tools := tools config
                ++ [ {| name := tool_name; github_url := Some base;
                        url := None |} ];
       instructions := instructions config;
       env_vars := <[tool_name := form_env_vars form]> (env_vars config);
       selected_model := selected_model config;
       tool_versions := tool_versions config |} in
  do save_user_config user_id config' then
  ret (Rendered (Some "Tool added successfully") None).

(** The branch ['remove_tool'] (lines 569-588). The [ValueError] for a
    tool that is not listed is caught at once and rendered as an error. *)
Definition remove_tool (user_id tool_name : string) : M answer :=
  let* config := load_user_config user_id in
  if bool_decide (Exists (fun t => name t = tool_name) (tools config)) then
    let config' :=
      {| tools := filter (fun t => name t ≠ tool_name) (tools config);
         instructions := instructions config;
         env_vars := delete tool_name (env_vars config);
         selected_model := selected_model config;
         tool_versions := tool_versions config |} in
    do save_user_config user_id config' then
    ret (Rendered
           (Some ("Tool " +:+ tool_name +:+ " removed successfully")) None)
  else
    ret (Rendered None
           (Some ("Error removing tool: Tool " +:+ tool_name
                    +:+ " not found in configuration"))).

Section Settings.

Variable requests_get : string -> http_result.
Variable sha256_hexdigest : string -> string.
Variable pip_install : list string -> option string.
Variable mcp_enter : gmap string connection -> result (list string).

(** The branch ['apply_settings'] (lines 590-600), for a form whose
    [timeout] and [recursion_limit] fields are integers; these two go to
    the session, which is not part of the process state here.
    [new_instructions] is [form_data.get('instructions', '')]. *)
Definition apply_settings (user_id new_model new_instructions : string)
    : M answer :=
  let* config := load_user_config user_id in
  let config' :=
    {| tools := tools config; instructions := new_instructions;
       env_vars := env_vars config; selected_model := Some new_model;
       tool_versions := tool_versions config |} in
  do save_user_config user_id config' then
  do initialize_agent requests_get sha256_hexdigest pip_install mcp_enter
       user_id then
  ret ToChat.

End Settings.

(** A form as the page of the environment variables posts it. *)
Definition weather_form : gmap string string :=
  {[ "submit_env_vars" := "1"; "tool_name" := "weather";
     "github_url" := "https://example.org/market";
     "env_API_KEY" := "secret"; "env_REGION" := "eu" ]}.

(** * Properties *)

(** ** Strings and joins *)

Lemma append_cons (c : Ascii.ascii) (s t : string) :
  String c s +:+ t = String c (s +:+ t).
Proof. reflexivity. Qed.

Lemma append_nil_r (s : string) : s +:+ "" = s.
Proof. induction s as [|c s IH]; [done |]. by rewrite append_cons, IH. Qed.

Lemma append_assoc (s1 s2 s3 : string) :
  (s1 +:+ s2) +:+ s3 = s1 +:+ (s2 +:+ s3).
Proof. induction s1 as [|c s1 IH]; [done |]. by rewrite !append_cons, IH. Qed.

Lemma join_cons (x : string) (l : list string) : join (x :: l) = x +:+ join l.
Proof. reflexivity. Qed.

Lemma join_app (l1 l2 : list string) : join (l1 ++ l2) = join l1 +:+ join l2.
Proof.
  induction l1 as [|x l1 IH]; [done |].
  by rewrite <- app_comm_cons, !join_cons, IH, append_assoc.
Qed.

Lemma join_snoc (l : list string) (x : string) :
  join (l ++ [x]) = join l +:+ x.
Proof.
  rewrite join_app. change (join [x]) with (x +:+ ""). by rewrite append_nil_r.
Qed.

Lemma prefix_starts_with (p s : string) :
  String.prefix p s = true <-> starts_with p s.
Proof.
  unfold starts_with. revert s.
  induction p as [|c p IH]; intros s.
  - split; [intros _; by exists s | by destruct s].
  - destruct s as [|c' s].
    + split; [done | intros [rest Hrest]; discriminate].
    + change (String.prefix (String c p) (String c' s))
        with (if Ascii.ascii_dec c c' then String.prefix p s else false).
      destruct (Ascii.ascii_dec c c') as [->|Hne].
      * rewrite IH. split; intros [rest Hrest]; exists rest.
        -- by rewrite append_cons, Hrest.
        -- rewrite append_cons in Hrest. by injection Hrest.
      * split; [done |].
        intros [rest Hrest]. rewrite append_cons in Hrest.
        injection Hrest. congruence.
Qed.

(** ** The reducer keeps both channels cumulative *)

Lemma prefix_chain_app (a : string) (l1 l2 : list string) :
  prefix_chain a l1 -> prefix_chain (default a (last l1)) l2 ->
  prefix_chain a (l1 ++ l2).
Proof.
  revert a. induction l1 as [|p l1 IH]; intros a H1 H2; [done |].
  destruct H1 as [Hp H1]. rewrite <- app_comm_cons. split; [done |].
  apply IH; [done |]. rewrite last_cons in H2. by destruct (last l1).
Qed.

Lemma last_app_default (a : string) (l1 l2 : list string) :
  default a (last (l1 ++ l2)) = default (default a (last l1)) (last l2).
Proof.
  destruct l2 as [|x l2 _] using rev_ind.
  - by rewrite app_nil_r.
  - by rewrite app_assoc, !last_snoc.
Qed.

Lemma prefix_chain_monotone (a : string) (l : list string) :
  prefix_chain a l -> prefix_monotone l.
Proof.
  revert a. induction l as [|p l IH]; intros a H i x y Hx Hy; [done |].
  destruct H as [_ H]. destruct i as [|i]; simpl in *.
  - destruct l as [|q l]; [done |]. simpl in *.
    destruct H as [Hq _]. by simplify_eq.
  - by eapply IH.
Qed.

Section Tracking.

Variable payload : event -> option string.
Variable buffer : buffers -> list string.

Lemma tracks_red_ok : tracks payload buffer (fun b => red_ok b []).
Proof. intros b. simpl. done. Qed.

Lemma tracks_red_raise (e : exn) :
  tracks payload buffer (fun b => red_raise b e).
Proof. intros b. simpl. done. Qed.

Lemma tracks_red_then (f : buffers -> reduction)
    (k : buffers -> reduction) :
  tracks payload buffer f -> tracks payload buffer k ->
  tracks payload buffer (fun b => red_then (f b) k).
Proof.
  intros Hf Hk b. unfold red_then.
  destruct (Hf b) as [Hc Hl].
  destruct (raised (f b)); [done |]. simpl.
  destruct (Hk (bufs (f b))) as [Hc' Hl'].
  rewrite omap_app, last_app_default, Hl. split; [| done].
  apply prefix_chain_app; [done | by rewrite Hl].
Qed.

Lemma tracks_for_each {A} (body : A -> buffers -> reduction) (l : list A) :
  (forall x, tracks payload buffer (body x)) ->
  tracks payload buffer (for_each body l).
Proof.
  intros Hbody. induction l as [|x l IH]; simpl.
  - apply tracks_red_ok.
  - by apply (tracks_red_then (body x) (for_each body l)).
Qed.

End Tracking.

Section Channels.

Variable payload : event -> option string.
Variable buffer : buffers -> list string.
Hypothesis text_tracked :
  forall fragment, tracks payload buffer (append_text fragment).
Hypothesis tool_tracked :
  forall s label, tracks payload buffer (append_tool s label).

Local Ltac by_primitive b :=
  repeat case_match;
  first [ apply (tracks_red_ok payload buffer b)
        | apply (tracks_red_raise payload buffer _ b)
        | apply (text_tracked _ b)
        | apply (tool_tracked _ _ b) ].

Lemma tracks_process_item (item : content_item) :
  tracks payload buffer (process_item item).
Proof. intros b. unfold process_item. by_primitive b. Qed.

Lemma tracks_process_other_metadata (m : ai_message) :
  tracks payload buffer (process_other_metadata m).
Proof. intros b. unfold process_other_metadata. by_primitive b. Qed.

Lemma tracks_process_tool_metadata (m : ai_message) :
  tracks payload buffer (process_tool_metadata m).
Proof.
  intros b. unfold process_tool_metadata.
  repeat case_match;
    first [ apply (tool_tracked _ _ b)
          | apply (tracks_process_other_metadata m b) ].
Qed.

Lemma tracks_process_ai_message (m : ai_message) :
  tracks payload buffer (process_ai_message m).
Proof.
  intros b. unfold process_ai_message.
  repeat case_match;
    first [ apply (text_tracked _ b)
          | apply (tracks_process_tool_metadata m b)
          | apply (tracks_for_each payload buffer process_item _
                     tracks_process_item b) ].
Qed.

Lemma tracks_process_message (msg : message) :
  tracks payload buffer (process_message msg).
Proof.
  intros b. destruct msg as [m|c|]; simpl.
  - apply tracks_process_ai_message.
  - apply tool_tracked.
  - apply (tracks_red_ok payload buffer b).
Qed.

Lemma tracks_process_chunk (c : chunk) :
  tracks payload buffer (process_chunk c).
Proof.
  intros b. destruct c as [msgs|]; simpl.
  - apply (tracks_for_each payload buffer process_message msgs
             tracks_process_message b).
  - apply (tracks_red_ok payload buffer b).
Qed.

Lemma tracks_chunks (cs : list chunk) :
  tracks payload buffer (for_each process_chunk cs).
Proof. apply tracks_for_each, tracks_process_chunk. Qed.

End Channels.

Lemma text_channel_chunks (cs : list chunk) :
  tracks text_payload accumulated_text (for_each process_chunk cs).
Proof.
  apply tracks_chunks.
  - intros fragment b. simpl. rewrite join_snoc. eauto.
  - intros s label b. simpl. done.
Qed.

Lemma tool_channel_chunks (cs : list chunk) :
  tracks tool_payload accumulated_tool (for_each process_chunk cs).
Proof.
  apply tracks_chunks.
  - intros fragment b. simpl. done.
  - intros s label b. simpl. rewrite join_snoc. eauto.
Qed.

(** The events of a query are those of the reduction, followed by at most
    one [Error]. *)
Lemma generate_events (query thread_id : string) (timeout_seconds : Z)
    (run : agent_stream) (s : state) :
  let r := for_each process_chunk (chunks run) no_buffers in
  let evs := events (generate query thread_id timeout_seconds run s).1 in
  (exists msg, evs = [Error msg]) \/ evs = emitted r \/
  (exists msg, evs = emitted r ++ [Error msg]).
Proof.
  unfold generate. simpl. repeat case_match; simpl; eauto.
Qed.

(** C10. Within one query, every text payload is the previous text payload
    with a fragment appended, and every tool payload is the previous tool
    payload with a fragment appended. *)
Theorem cumulative_output_monotone (query thread_id : string)
    (timeout_seconds : Z) (run : agent_stream) (s : state) :
  let evs := events (generate query thread_id timeout_seconds run s).1 in
  prefix_monotone (text_payloads evs) /\ prefix_monotone (tool_payloads evs).
Proof.
  intros evs.
  destruct (text_channel_chunks (chunks run) no_buffers) as [Htext _].
  destruct (tool_channel_chunks (chunks run) no_buffers) as [Htool _].
  assert (Hmono : forall l : list string, prefix_chain "" l -> prefix_monotone l)
    by (intros l; apply prefix_chain_monotone).
  destruct (generate_events query thread_id timeout_seconds run s)
    as [[msg Hev]|[Hev|[msg Hev]]]; fold evs in Hev; rewrite Hev;
    unfold text_payloads, tool_payloads; rewrite ?omap_app; simpl;
    rewrite ?app_nil_r; split; solve [ by apply Hmono | by intros [|?] ].
Qed.

(** ** The reduction itself yields no [Error] event *)

Lemma error_count_app (l1 l2 : list event) :
  error_count (l1 ++ l2) = error_count l1 + error_count l2.
Proof. unfold error_count. by rewrite filter_app, length_app. Qed.

Lemma silent_red_then (f k : buffers -> reduction) :
  silent f -> silent k -> silent (fun b => red_then (f b) k).
Proof.
  intros Hf Hk b. unfold red_then.
  destruct (raised (f b)); [apply Hf |]. simpl.
  by rewrite error_count_app, Hf, Hk.
Qed.

Lemma silent_for_each {A} (body : A -> buffers -> reduction) (l : list A) :
  (forall x, silent (body x)) -> silent (for_each body l).
Proof.
  intros Hbody. induction l as [|x l IH]; simpl; [done |].
  by apply (silent_red_then (body x) (for_each body l)).
Qed.

Lemma silent_process_item (item : content_item) : silent (process_item item).
Proof. intros b. unfold process_item. by repeat case_match. Qed.

Lemma silent_process_tool_metadata (m : ai_message) :
  silent (process_tool_metadata m).
Proof.
  intros b. unfold process_tool_metadata, process_other_metadata.
  by repeat case_match.
Qed.

Lemma silent_process_message (msg : message) : silent (process_message msg).
Proof.
  intros b. destruct msg as [m|c|]; simpl; [| done | done].
  unfold process_ai_message.
  repeat case_match;
    first [ done
          | apply silent_process_tool_metadata
          | apply (silent_for_each process_item _ silent_process_item) ].
Qed.

Lemma silent_chunks (cs : list chunk) : silent (for_each process_chunk cs).
Proof.
  apply silent_for_each. intros [msgs|] b; simpl; [| done].
  apply (silent_for_each process_message _ silent_process_message).
Qed.




Example timeout_scenario :
  events (generate "What is 2+2?" "t1" 5 stalled serving_state).1
    = [TextDelta "4"; Error "Request timed out after 5 seconds"].
Proof. reflexivity. Qed.

(** ** Completion *)

(** [generate] assigns nothing in the process state. *)
Lemma generate_state (query thread_id : string) (timeout_seconds : Z)
    (run : agent_stream) (s : state) :
  (generate query thread_id timeout_seconds run s).2 = s.
Proof. unfold generate. by repeat case_match. Qed.

(** On normal completion the local [history] is the retrieved thread
    followed by the user message, then the assistant message if the text
    is not empty, then the tool message if the trace is not empty. *)
Lemma completion_local_history (query thread_id : string)
    (timeout_seconds : Z) (run : agent_stream) (s : state) :
  is_Some (agent s) ->
  block_exit (for_each process_chunk (chunks run) no_buffers) (ending run)
    = None ->
  history (generate query thread_id timeout_seconds run s).1
    = Some (thread s thread_id
            ++ [ {| role := "user"; text := query |} ]
            ++ (if decide (join (accumulated_text
                    (bufs (for_each process_chunk (chunks run) no_buffers)))
                  = "")
                then []
                else [ {| role := "assistant";
                          text := join (accumulated_text
                            (bufs (for_each process_chunk (chunks run)
                                     no_buffers))) |} ])
            ++ (if decide (join (accumulated_tool
                    (bufs (for_each process_chunk (chunks run) no_buffers)))
                  = "")
                then []
                else [ {| role := "assistant_tool";
                          text := join (accumulated_tool
                            (bufs (for_each process_chunk (chunks run)
                                     no_buffers))) |} ])).
Proof.
  intros [a Ha] Hexit. unfold generate. rewrite Ha, Hexit. reflexivity.
Qed.


(** ** History retrieval *)







Example history_no_checkpoint (thread_id : string) :
  get_conversation_history ∅ thread_id = [].
Proof. reflexivity. Qed.

(** ** Tool registry client *)

Lemma raise_for_status_200 (target : string) (r : response) :
  status_code r = 200%Z -> raise_for_status target r = Return tt.
Proof. intros H. unfold raise_for_status. by rewrite H. Qed.

Lemma raise_for_status_kind (target : string) (r : response) :
  raise_for_status target r = Return tt
  \/ exists msg, raise_for_status target r = Raise (RequestException msg).
Proof. unfold raise_for_status. repeat case_match; eauto. Qed.

Section Registry.

Variable requests_get : string -> http_result.

(** The fetch leaves one trace entry and nothing else. *)
Lemma fetch_tool_manifest_state (tool_name base : string) (s : state) :
  (fetch_tool_manifest requests_get tool_name base s).2
    = (log (ManifestGet (registry_url base tool_name "manifest.json")) s).2.
Proof.
  unfold fetch_tool_manifest, try_except, bind, http_get, lift, raise, ret.
  simpl.
  destruct (requests_get _) as [msg|r]; simpl; [done |].
  unfold response_json. destruct (json r) as [msg|doc]; simpl; [done |].
  destruct (raise_for_status_kind
              (registry_url base tool_name "manifest.json") r)
    as [->|[msg ->]]; simpl; [| done].
  by case_decide.
Qed.

(** The fetch succeeds exactly on a 200 response with a JSON body. *)
Lemma fetch_tool_manifest_return (tool_name base : string) (s : state)
    (doc : json_doc) :
  (fetch_tool_manifest requests_get tool_name base s).1 = Return doc
  <-> exists r,
        requests_get (registry_url base tool_name "manifest.json")
          = HttpResponse r
        /\ status_code r = 200%Z /\ json r = inr doc.
Proof.
  unfold fetch_tool_manifest, try_except, bind, http_get, lift, raise, ret.
  simpl.
  destruct (requests_get _) as [msg|r]; simpl.
  { split; [done | by intros (? & ? & _)]. }
  unfold response_json. destruct (json r) as [msg|doc'] eqn:Hjson; simpl.
  { split; [done | intros (r' & Hr' & _ & Hj); congruence]. }
  destruct (decide (status_code r = 200%Z)) as [H200|Hne].
  - rewrite (raise_for_status_200 _ r H200). simpl.
    split.
    + intros [= ->]. by exists r.
    + intros (r' & [= <-] & _ & Hj). congruence.
  - split.
    + by destruct (raise_for_status_kind
                     (registry_url base tool_name "manifest.json") r)
        as [->|[msg ->]].
    + intros (r' & [= <-] & H200 & _). done.
Qed.

(** Whatever the fetch raises is a plain [Exception]. *)
Lemma fetch_tool_manifest_raise (tool_name base : string) (s : state)
    (e : exn) :
  (fetch_tool_manifest requests_get tool_name base s).1 = Raise e ->
  exists msg, e = Exception msg.
Proof.
  unfold fetch_tool_manifest, try_except, bind, http_get, lift, raise, ret.
  simpl.
  destruct (requests_get _) as [msg|r]; simpl; [intros [= <-]; eauto |].
  unfold response_json. destruct (json r) as [msg|doc'] eqn:Hjson; simpl.
  { intros [= <-]; eauto. }
  destruct (raise_for_status_kind
              (registry_url base tool_name "manifest.json") r)
    as [->|[msg ->]]; simpl; [| intros [= <-]; eauto].
  case_decide; simpl; [done | intros [= <-]; eauto].
Qed.

(** C9. A manifest fetch raises in exactly the cases of a network
    failure, a response whose status is not 200, or a body that is not
    valid JSON; what it raises is always an [Exception]; otherwise it
    returns the parsed body. *)
Theorem fetch_manifest_taxonomy (tool_name base : string) (s : state) :
  ((exists msg, (fetch_tool_manifest requests_get tool_name base s).1
                  = Raise (Exception msg))
   <-> registry_failure
         (requests_get (registry_url base tool_name "manifest.json")))
  /\ (forall e, (fetch_tool_manifest requests_get tool_name base s).1
                  = Raise e ->
                exists msg, e = Exception msg)
  /\ (forall doc, (fetch_tool_manifest requests_get tool_name base s).1
                    = Return doc
                  <-> exists r,
                        requests_get
                          (registry_url base tool_name "manifest.json")
                          = HttpResponse r
                        /\ status_code r = 200%Z /\ json r = inr doc).
Proof.
  split; [| split].
  - split.
    + intros [msg Hraise]. unfold registry_failure.
      destruct (requests_get _) as [m|r] eqn:Hget; [done |].
      destruct (decide (status_code r = 200%Z)) as [H200|Hne]; [| by left].
      right. destruct (json r) as [m|doc] eqn:Hjson; [by eexists |].
      assert (Hret : (fetch_tool_manifest requests_get tool_name base s).1
                     = Return doc)
        by (apply fetch_tool_manifest_return; exists r; by rewrite Hget).
      congruence.
    + intros Hfail.
      destruct (fetch_tool_manifest requests_get tool_name base s).1
        as [e|doc] eqn:Hres.
      * destruct (fetch_tool_manifest_raise _ _ _ _ Hres) as [msg ->].
        by exists msg.
      * apply fetch_tool_manifest_return in Hres
          as (r & Hget & H200 & Hjson).
        unfold registry_failure in Hfail. rewrite Hget in Hfail.
        destruct Hfail as [Hne|[msg Hbad]]; congruence.
  - apply fetch_tool_manifest_raise.
  - apply fetch_tool_manifest_return.
Qed.

End Registry.

(** ** Agent construction *)



Example model_selection_claude :
  select_model "claude-3-7-sonnet-latest"
    = ChatAnthropic "claude-3-7-sonnet-latest" 8192.
Proof. reflexivity. Qed.

Example model_selection_gpt : select_model "gpt-4o" = ChatOpenAI "gpt-4o" 16000.
Proof. reflexivity. Qed.

Section ToolFree.

Variable requests_get : string -> http_result.
Variable sha256_hexdigest : string -> string.
Variable pip_install : list string -> option string.
Variable mcp_enter : gmap string connection -> result (list string).

(** With [use_mcp=False] no client is created and nothing can fail. *)
Lemma create_agent_without_mcp (mcp_config : gmap string connection)
    (selected prompt : string) (s : state) :
  create_agent mcp_enter mcp_config selected prompt false s
    = (Return {| ag_model := select_model selected; ag_tools := [];
                 ag_prompt := prompt; ag_client := None |}, s).
Proof. reflexivity. Qed.


End ToolFree.


(** ** Replacing and releasing the agent *)

(** C7. The user logs in, then applies the settings again. The first
    agent holds client 0, the second client 1. After the second
    initialisation client 0 is still open although no handle refers to it,
    and no client was ever exited; [shutdown], run after the login
    instead, exits client 0 before it drops the handle. *)
Theorem replaced_handle_not_released :
  ag_client <$> agent after_login = Some (Some 0)
  /\ ag_client <$> agent after_apply = Some (Some 1)
  /\ is_Some (live_clients after_apply !! 0)
  /\ is_Some (live_clients after_apply !! 1)
  /\ client_exits (trace after_apply) = []
  /\ client_exits (trace (shutdown exit_ok after_login).2) = [0]
  /\ live_clients (shutdown exit_ok after_login).2 !! 0 = None
  /\ agent (shutdown exit_ok after_login).2 = None.
Proof. vm_compute. repeat split; eauto. Qed.

(** ** Effects of the registry client on the staging area and the trace *)

Lemma log_downloads (e : effect) (s : state) :
  downloads (log e s).2
    = downloads s ++ match e with ArtifactGet t => [t] | _ => [] end.
Proof.
  unfold downloads, artifact_gets, log, modify. simpl.
  rewrite omap_app. by destruct e.
Qed.

Lemma log_temp_tools (e : effect) (s : state) :
  temp_tools (log e s).2 = temp_tools s.
Proof. reflexivity. Qed.

Section Effects.

Variable requests_get : string -> http_result.
Variable sha256_hexdigest : string -> string.
Variable pip_install : list string -> option string.

Lemma manifest_of_fetch (t : tool_ref) (s : state) (m : manifest) :
  manifest_of requests_get t = Some m
  <-> (fetch_tool_manifest requests_get (name t) (base_of t) s).1
        = Return (JObject m).
Proof.
  rewrite fetch_tool_manifest_return. unfold manifest_of. split.
  - destruct (requests_get _) as [msg|r]; [done |].
    destruct (json r) as [msg|[m'|]] eqn:Hjson; [done | | done].
    case_decide; [| done]. intros [= ->]. by exists r.
  - intros (r & -> & H200 & ->). by rewrite decide_True.
Qed.

Lemma fetch_downloads (tool_name base : string) (s : state) :
  downloads (fetch_tool_manifest requests_get tool_name base s).2
    = downloads s.
Proof.
  rewrite fetch_tool_manifest_state, log_downloads. apply app_nil_r.
Qed.

Lemma fetch_temp_tools (tool_name base : string) (s : state) :
  temp_tools (fetch_tool_manifest requests_get tool_name base s).2
    = temp_tools s.
Proof. by rewrite fetch_tool_manifest_state. Qed.

(** A call of [download_tool] requests the artifact once, whatever comes
    back, and writes at most the artifact's file. *)
Lemma download_tool_downloads (tool_name file_name base : string)
    (s : state) :
  downloads (download_tool requests_get sha256_hexdigest tool_name file_name
               base s).2
    = downloads s ++ [registry_url base tool_name file_name].
Proof.
  rewrite <- (log_downloads
                (ArtifactGet (registry_url base tool_name file_name)) s).
  unfold download_tool, try_except, http_get, bind, lift, raise, ret, modify.
  destruct (log (ArtifactGet (registry_url base tool_name file_name)) s)
    as [[e|[]] s1] eqn:Hs1; simpl; [done |].
  destruct (requests_get _) as [msg|r]; simpl; [done |].
  destruct (raise_for_status_kind
              (registry_url base tool_name file_name) r)
    as [->|[msg ->]]; simpl; [| done].
  case_decide; simpl; done.
Qed.

Lemma download_tool_temp_tools (tool_name file_name base : string)
    (s : state) :
  temp_tools (download_tool requests_get sha256_hexdigest tool_name file_name
                base s).2
    ⊆ temp_tools s ∪ {[ artifact_path tool_name file_name ]}.
Proof.
  unfold download_tool, try_except, http_get, bind, lift, raise, ret, modify,
    log.
  simpl.
  destruct (requests_get _) as [msg|r]; simpl; [apply union_subseteq_l |].
  destruct (raise_for_status_kind
              (registry_url base tool_name file_name) r)
    as [->|[msg ->]]; simpl; [| apply union_subseteq_l].
  destruct (decide (status_code r = 200%Z)) as [_|_]; simpl;
    [| apply union_subseteq_l].
  by rewrite (comm_L (∪)).
Qed.

Lemma download_tool_served (t : tool_ref) (file_name : string) (s : state) :
  artifact_served requests_get t file_name ->
  exists checksum,
    (download_tool requests_get sha256_hexdigest (name t) file_name
       (base_of t) s).1 = Return checksum.
Proof.
  intros (r & Hget & H200).
  unfold download_tool, try_except, http_get, bind, lift, raise, ret, modify,
    log.
  simpl. rewrite Hget. simpl. rewrite (raise_for_status_200 _ r H200). simpl.
  rewrite decide_True by done. simpl. by eexists.
Qed.

Lemma install_dependencies_downloads (deps : list string) (s : state) :
  downloads (install_dependencies pip_install deps s).2 = downloads s.
Proof.
  unfold install_dependencies, bind, raise, ret.
  destruct deps as [|d deps]; [done |].
  pose proof (log_downloads (PipInstall (d :: deps)) s) as Hlog.
  destruct (log (PipInstall (d :: deps)) s) as [[e|[]] s1] eqn:Hs1;
    simpl in Hlog; rewrite app_nil_r in Hlog; [done |].
  by destruct (pip_install (d :: deps)).
Qed.

Lemma install_dependencies_temp_tools (deps : list string) (s : state) :
  temp_tools (install_dependencies pip_install deps s).2 = temp_tools s.
Proof.
  unfold install_dependencies, bind, raise, ret, log, modify.
  destruct deps as [|d deps]; [done |]. simpl.
  by destruct (pip_install (d :: deps)).
Qed.

Lemma install_dependencies_installable (deps : list string) (s : state) :
  installable pip_install deps ->
  (install_dependencies pip_install deps s).1 = Return tt.
Proof.
  unfold install_dependencies, bind, raise, ret, log, modify.
  intros [->|Hpip]; [done |].
  destruct deps as [|d deps]; [done |]. simpl. by rewrite Hpip.
Qed.

End Effects.

(** ** One tool of the materialisation loop *)

Section Materialisation.

Variable requests_get : string -> http_result.
Variable sha256_hexdigest : string -> string.
Variable pip_install : list string -> option string.

(** What preparing one tool does to the staging area and to the list of
    downloads. Only a manifest with a version, the [stdio] transport and a
    file can cause a download, and it does whenever the file is not
    staged. *)
Lemma prepare_tool_effects (config : user_config) (t : tool_ref)
    (m : manifest) (loc : locals) (s : state) :
  match manifest_stdio_file m with
  | None =>
      downloads (prepare_tool requests_get sha256_hexdigest pip_install
                   config t m loc s).2 = downloads s
      /\ temp_tools (prepare_tool requests_get sha256_hexdigest pip_install
                       config t m loc s).2 = temp_tools s
  | Some f =>
      temp_tools (prepare_tool requests_get sha256_hexdigest pip_install
                    config t m loc s).2
        ⊆ temp_tools s ∪ {[ artifact_path (name t) f ]}
      /\ (artifact_path (name t) f ∉ temp_tools s ->
          downloads (prepare_tool requests_get sha256_hexdigest pip_install
                       config t m loc s).2
            = downloads s ++ [registry_url (base_of t) (name t) f])
  end.
Proof.
  destruct (prepare_tool requests_get sha256_hexdigest pip_install config t m
              loc s) as [r s'] eqn:H.
  unfold prepare_tool in H.
  unfold bind, lift, subscript, gets, ret, raise in H.
  unfold manifest_stdio_file, base_of. simpl.
  pose proof (download_tool_downloads requests_get sha256_hexdigest
                (name t)) as Hd1.
  pose proof (download_tool_temp_tools requests_get sha256_hexdigest
                (name t)) as Hd2.
  pose proof (install_dependencies_downloads pip_install
                (default [] (m_dependencies m))) as Hi1.
  pose proof (install_dependencies_temp_tools pip_install
                (default [] (m_dependencies m))) as Hi2.
  destruct (m_version m) as [v|]; [| by simplify_eq].
  destruct (m_transport m) as [tr|], (m_file m) as [f|];
    destruct (decide (v ≠ default "0.0.0" (l_tool_versions loc !! name t)));
    simpl in H; try (by simplify_eq);
    destruct (decide (tr = "stdio")) as [Hstdio|Hstdio];
    destruct (decide (tr = "sse")) as [Hsse|Hsse];
    simpl in H; try (by simplify_eq);
    try (destruct (l_tool_config loc); by simplify_eq).
  - (* the version changed: download and install *)
    specialize (Hd1 f (default TOOL_MARKET_URL (github_url t)) s).
    specialize (Hd2 f (default TOOL_MARKET_URL (github_url t)) s).
    destruct (download_tool requests_get sha256_hexdigest (name t) f
                (default TOOL_MARKET_URL (github_url t)) s) as [[e|c] sd];
      simpl in Hd1, Hd2; [by simplify_eq |].
    specialize (Hi1 sd). specialize (Hi2 sd).
    destruct (install_dependencies pip_install
                (default [] (m_dependencies m)) sd) as [[e|[]] si];
      simpl in Hi1, Hi2, H; simplify_eq; (split; [by rewrite Hi2 | congruence]).
  - (* the version is cached: the file decides *)
    destruct (bool_decide (artifact_path (name t) f ∈ temp_tools s))
      eqn:Hstaged; simpl in H.
    + apply bool_decide_eq_true in Hstaged. simplify_eq.
      split; [apply union_subseteq_l | done].
    + specialize (Hd1 f (default TOOL_MARKET_URL (github_url t)) s).
      specialize (Hd2 f (default TOOL_MARKET_URL (github_url t)) s).
      destruct (download_tool requests_get sha256_hexdigest (name t) f
                  (default TOOL_MARKET_URL (github_url t)) s) as [[e|c] sd];
        simpl in Hd1, Hd2; [by simplify_eq |].
      specialize (Hi1 sd). specialize (Hi2 sd).
      destruct (install_dependencies pip_install
                  (default [] (m_dependencies m)) sd) as [[e|[]] si];
        simpl in Hi1, Hi2, H; simplify_eq; (split; [by rewrite Hi2 | congruence]).
  - (* [sse], version cached *)
    destruct (bool_decide _) in H; simpl in H; by simplify_eq.
  - (* another transport, version cached *)
    destruct (bool_decide _) in H; simpl in H;
      destruct (l_tool_config loc); by simplify_eq.
Qed.

Lemma pull_tool_effects (config : user_config) (t : tool_ref) (loc : locals)
    (s : state) :
  match stdio_file requests_get t with
  | None =>
      downloads (pull_tool requests_get sha256_hexdigest pip_install
                   config t loc s).2 = downloads s
      /\ temp_tools (pull_tool requests_get sha256_hexdigest pip_install
                       config t loc s).2 = temp_tools s
  | Some f =>
      temp_tools (pull_tool requests_get sha256_hexdigest pip_install
                    config t loc s).2
        ⊆ temp_tools s ∪ {[ artifact_path (name t) f ]}
      /\ (artifact_path (name t) f ∉ temp_tools s ->
          downloads (pull_tool requests_get sha256_hexdigest pip_install
                       config t loc s).2
            = downloads s ++ [registry_url (base_of t) (name t) f])
  end.
Proof.
  unfold pull_tool, bind, stdio_file. fold (base_of t).
  pose proof (fetch_downloads requests_get (name t) (base_of t) s) as Hfd.
  pose proof (fetch_temp_tools requests_get (name t) (base_of t) s) as Hft.
  pose proof (manifest_of_fetch requests_get t s) as Hm.
  destruct (fetch_tool_manifest requests_get (name t) (base_of t) s)
    as [[e|[m|]] s1]; simpl in *.
  - destruct (manifest_of requests_get t) as [m|]; [| done].
    by pose proof (proj1 (Hm m) eq_refl).
  - rewrite (proj2 (Hm m) eq_refl). rewrite <- Hfd, <- Hft.
    apply prepare_tool_effects.
  - destruct (manifest_of requests_get t) as [m|]; [| done].
    by pose proof (proj1 (Hm m) eq_refl).
Qed.

(** The downloads of the loop, started on a staging area that holds none
    of the artifacts of the list, when these artifacts are distinct files:
    one download per [stdio] tool, in the order of the list, whatever the
    cached versions say. *)
Lemma pull_tools_downloads (config : user_config) (ts : list tool_ref)
    (loc : locals) (s : state) :
  NoDup (omap (stdio_path requests_get) ts) ->
  (forall p, p ∈ omap (stdio_path requests_get) ts -> p ∉ temp_tools s) ->
  downloads (pull_tools requests_get sha256_hexdigest pip_install config ts
               loc s).2
    = downloads s ++ omap (stdio_target requests_get) ts.
Proof.
  revert loc s. induction ts as [|t ts IH]; intros loc s Hnodup Hfresh.
  { simpl. by rewrite app_nil_r. }
  assert (Hstep :
    (pull_tools requests_get sha256_hexdigest pip_install config (t :: ts)
       loc s).2
    = (pull_tools requests_get sha256_hexdigest pip_install config ts
         (match (pull_tool requests_get sha256_hexdigest pip_install config t
                   loc s).1 with
          | Raise _ => loc
          | Return loc' => loc'
          end)
         (pull_tool requests_get sha256_hexdigest pip_install config t
            loc s).2).2).
  { simpl. unfold bind, try_except, ret.
    by destruct (pull_tool requests_get sha256_hexdigest pip_install config t
                   loc s) as [[e|loc'] s1]. }
  rewrite Hstep. clear Hstep.
  pose proof (pull_tool_effects config t loc s) as Heff.
  simpl in Hnodup, Hfresh |- *. unfold stdio_path, stdio_target in *.
  destruct (stdio_file requests_get t) as [f|]; simpl in *.
  - apply NoDup_cons in Hnodup as [Hnotin Hnodup].
    destruct Heff as [Hsub Hdl].
    rewrite IH; [| done |].
    + rewrite Hdl; [by rewrite <- app_assoc |].
      apply Hfresh. by left.
    + intros p Hp Hin. apply Hsub in Hin.
      apply elem_of_union in Hin as [Hin|Hin%elem_of_singleton].
      * by apply (Hfresh p); [right |].
      * by subst.
  - destruct Heff as [Hdl Htemp].
    rewrite IH; [by rewrite Hdl | done |].
    intros p Hp. rewrite Htemp. by apply Hfresh.
Qed.

(** C6, amended. Every run of the materialisation requests the artifact
    of every [stdio] tool of the configuration again, once each and in the
    order of the list, whatever versions are cached and whatever files
    were staged before the run (the staging directory is cleared first);
    no artifact is requested for any other tool. The artifacts of the
    [stdio] tools are taken to be distinct files. *)
Theorem staging_cleared_every_run (user_id : string) (s : state) :
  NoDup (omap (stdio_path requests_get)
              (tools (loaded_config s user_id))) ->
  downloads (materialize requests_get sha256_hexdigest pip_install
               user_id s).2
    = downloads s
      ++ omap (stdio_target requests_get) (tools (loaded_config s user_id)).
Proof.
  intros Hnodup.
  unfold materialize, load_user_config, clear_temp_tools, save_user_config,
    loaded_config in *.
  unfold bind, gets, modify, ret. simpl.
  destruct (users_collection s !! user_id) as [config|]; simpl in *.
  - pose proof (pull_tools_downloads config (tools config)
                  (start_locals config) (set_temp_tools ∅ s) Hnodup) as Hdl.
    destruct (pull_tools requests_get sha256_hexdigest pip_install config
                (tools config) (start_locals config) (set_temp_tools ∅ s))
      as [[e|loc] s1]; simpl in *; apply Hdl; intros p _; apply not_elem_of_empty.
  - by rewrite app_nil_r.
Qed.

(** What a successful preparation leaves in the locals: one more entry in
    [updated_tools], which is the tool's own configuration or, when the
    transport is neither [stdio] nor [sse], the configuration that the
    variable [tool_config] still held. *)
Lemma prepare_tool_result (config : user_config) (t : tool_ref)
    (m : manifest) (loc loc' : locals) (s : state) :
  (prepare_tool requests_get sha256_hexdigest pip_install config t m loc s).1
    = Return loc' ->
  exists tc,
    l_updated_tools loc' = l_updated_tools loc ++ [tc]
    /\ l_tool_config loc' = Some tc
    /\ (built_from config t m tc
        \/ (l_tool_config loc = Some tc
            /\ m_transport m <> Some "stdio" /\ m_transport m <> Some "sse")).
Proof.
  unfold prepare_tool, built_from.
  unfold bind, lift, subscript, gets, ret, raise.
  destruct (m_version m) as [v|]; [| done].
  destruct (m_transport m) as [tr|], (m_file m) as [f|];
    destruct (decide (v ≠ default "0.0.0" (l_tool_versions loc !! name t)));
    simpl; try done;
    destruct (decide (tr = "stdio")) as [Hstdio|Hstdio];
    destruct (decide (tr = "sse")) as [Hsse|Hsse];
    try destruct (bool_decide (artifact_path (name t) f ∈ temp_tools s));
    simpl; try done;
    try (destruct (download_tool requests_get sha256_hexdigest (name t) f
                     (default TOOL_MARKET_URL (github_url t)) s)
           as [[e|c] sd]; simpl; [done |];
         destruct (install_dependencies pip_install
                     (default [] (m_dependencies m)) sd) as [[e|[]] si];
           simpl; [done |]);
    try (destruct (l_tool_config loc) as [tc0|] eqn:Hvar; simpl; [| done]);
    intros [= <-]; simpl; eexists; (split; [done |]); (split; [done |]);
    subst; eauto 8; right; repeat split; congruence.
Qed.

(** A complete manifest with a supported transport is prepared without an
    exception when, for [stdio], the artifact is served and the
    dependencies install. *)
Lemma prepare_tool_ok (config : user_config) (t : tool_ref) (m : manifest)
    (v f : string) (loc : locals) (s : state) :
  m_version m = Some v -> m_file m = Some f ->
  (m_transport m = Some "stdio" /\ artifact_served requests_get t f
   /\ installable pip_install (default [] (m_dependencies m)))
  \/ m_transport m = Some "sse" ->
  exists loc',
    (prepare_tool requests_get sha256_hexdigest pip_install config t m loc
       s).1 = Return loc'.
Proof.
  intros Hv Hf Hok.
  unfold prepare_tool.
  unfold bind, lift, subscript, gets, ret, raise.
  rewrite Hv, Hf.
  assert (Hfetch : forall s0,
    m_transport m = Some "sse" \/
    exists loc0 s1,
      (let (r, s') := download_tool requests_get sha256_hexdigest (name t) f
                        (default TOOL_MARKET_URL (github_url t)) s0 in
       match r with
       | Raise e => (Raise e, s')
       | Return _ =>
           let (r0, s'0) := install_dependencies pip_install
                              (default [] (m_dependencies m)) s' in
           match r0 with
           | Raise e => (Raise e, s'0)
           | Return _ =>
               (Return (bind_config (stdio_config config (name t) f)
                          (<[name t:=v]> (l_tool_versions loc)) loc), s'0)
           end
       end) = (Return loc0, s1) /\ is_Some (l_tool_config loc0)).
  { intros s0. destruct Hok as [(Htr & Hserved & Hinst)|Hsse]; [| by left].
    right.
    destruct (download_tool_served requests_get sha256_hexdigest t f s0 Hserved)
      as [c Hc]. unfold base_of in Hc.
    destruct (download_tool requests_get sha256_hexdigest (name t) f
                (default TOOL_MARKET_URL (github_url t)) s0) as [rd sd].
    simpl in Hc. subst rd.
    pose proof (install_dependencies_installable pip_install _ sd Hinst) as Hi.
    destruct (install_dependencies pip_install
                (default [] (m_dependencies m)) sd) as [ri si].
    simpl in Hi. subst ri. eexists _, si. split; [done |]. by eexists. }
  destruct Hok as [(Htr & _ & _)|Htr]; rewrite Htr; simpl.
  - destruct (decide (v ≠ default "0.0.0" (l_tool_versions loc !! name t)));
      simpl;
      try destruct (bool_decide (artifact_path (name t) f ∈ temp_tools s));
      simpl; try (by eexists);
      destruct (Hfetch s) as [?|(loc0 & s1 & -> & tc & Htc)]; try congruence;
      simpl; rewrite Htc; by eexists.
  - destruct (decide (v ≠ default "0.0.0" (l_tool_versions loc !! name t)));
      simpl;
      try destruct (bool_decide (artifact_path (name t) f ∈ temp_tools s));
      simpl; by eexists.
Qed.

Lemma pull_tool_result (config : user_config) (t : tool_ref)
    (loc loc' : locals) (s : state) :
  (pull_tool requests_get sha256_hexdigest pip_install config t loc s).1
    = Return loc' ->
  exists tc,
    l_updated_tools loc' = l_updated_tools loc ++ [tc]
    /\ l_tool_config loc' = Some tc
    /\ (describes requests_get config t tc \/ l_tool_config loc = Some tc).
Proof.
  unfold pull_tool, bind. fold (base_of t).
  pose proof (manifest_of_fetch requests_get t s) as Hm.
  destruct (fetch_tool_manifest requests_get (name t) (base_of t) s)
    as [[e|[m|]] s1]; simpl in *; [done | | done].
  intros (tc & Hupd & Hvar & Hbuilt)%prepare_tool_result.
  exists tc. split; [done |]. split; [done |].
  destruct Hbuilt as [Hbuilt|(Hold & _)]; [left | by right].
  exists m. split; [by apply Hm | done].
Qed.

Lemma pull_tool_ok (config : user_config) (t : tool_ref) (loc : locals)
    (s : state) :
  tool_ok requests_get pip_install t ->
  exists loc' tc,
    (pull_tool requests_get sha256_hexdigest pip_install config t loc s).1
      = Return loc'
    /\ l_updated_tools loc' = l_updated_tools loc ++ [tc]
    /\ l_tool_config loc' = Some tc
    /\ describes requests_get config t tc.
Proof.
  intros (m & v & f & Hm & Hv & Hf & Hok).
  unfold pull_tool, bind. fold (base_of t).
  pose proof (proj1 (manifest_of_fetch requests_get t s m) Hm) as Hfetch.
  destruct (fetch_tool_manifest requests_get (name t) (base_of t) s)
    as [r1 s1]; simpl in Hfetch; subst r1.
  destruct (prepare_tool_ok config t m v f loc s1 Hv Hf Hok) as [loc' Hret].
  destruct (prepare_tool_result config t m loc loc' s1 Hret)
    as (tc & Hupd & Hvar & Hbuilt).
  exists loc', tc. repeat split; [done | done | done |].
  exists m. split; [done |].
  destruct Hbuilt as [Hbuilt|(_ & Hn1 & Hn2)]; [done |].
  destruct Hok as [(Htr & _)|Htr]; congruence.
Qed.

Lemma describes_name (config : user_config) (t : tool_ref)
    (tc : tool_config) :
  describes requests_get config t tc -> tc_name tc = name t.
Proof.
  intros (m & _ & [(_ & f & _ & ->)|(_ & ->)]); reflexivity.
Qed.

(** One iteration: the handler resumes the loop with the locals of the
    iteration's start and the state the failed body left. *)
Lemma pull_tools_cons (config : user_config) (t : tool_ref)
    (ts : list tool_ref) (loc : locals) (s : state) :
  pull_tools requests_get sha256_hexdigest pip_install config (t :: ts) loc s
    = pull_tools requests_get sha256_hexdigest pip_install config ts
        (match (pull_tool requests_get sha256_hexdigest pip_install config t
                  loc s).1 with
         | Raise _ => loc
         | Return loc' => loc'
         end)
        (pull_tool requests_get sha256_hexdigest pip_install config t loc s).2.
Proof.
  simpl. unfold bind, try_except, ret.
  by destruct (pull_tool requests_get sha256_hexdigest pip_install config t
                 loc s) as [[e|loc'] s1].
Qed.

(** The loop never raises. It extends [updated_tools] by configurations
    that are built for tools of the list (or repeat the one that the
    variable [tool_config] held when the loop started), and every tool of
    the list for which all steps succeed gets one under its name. *)
Lemma pull_tools_spec (config : user_config) (ts : list tool_ref)
    (loc : locals) (s : state) :
  exists loc' added,
    (pull_tools requests_get sha256_hexdigest pip_install config ts loc s).1
      = Return loc'
    /\ l_updated_tools loc' = l_updated_tools loc ++ added
    /\ (forall tc, tc ∈ added ->
          (exists t, t ∈ ts /\ describes requests_get config t tc)
          \/ l_tool_config loc = Some tc)
    /\ (forall t, t ∈ ts -> tool_ok requests_get pip_install t ->
          exists tc, tc ∈ added /\ tc_name tc = name t).
Proof.
  revert loc s. induction ts as [|t ts IH]; intros loc s.
  { exists loc, []. simpl. rewrite app_nil_r.
    split; [done |]. split; [done |].
    split; [intros tc Htc | intros t Ht]; exfalso; by eapply elem_of_nil. }
  rewrite pull_tools_cons.
  destruct (pull_tool requests_get sha256_hexdigest pip_install config t loc s)
    as [[e|loc1] s1] eqn:Hstep; simpl.
  - (* the tool is skipped *)
    destruct (IH loc s1) as (loc' & added & Hret & Hupd & Hdesc & Hok).
    exists loc', added. split; [done |]. split; [done |]. split.
    + intros tc Htc. destruct (Hdesc tc Htc) as [(t' & Ht' & Hd)|Hold];
        [left; exists t'; split; [by right | done] | by right].
    + intros t' [->|Ht']%elem_of_cons Htok; [| by apply Hok].
      destruct (pull_tool_ok config t loc s Htok) as (? & ? & Hret' & _).
      rewrite Hstep in Hret'. done.
  - (* the tool is appended *)
    pose proof (pull_tool_result config t loc loc1 s) as Hres.
    rewrite Hstep in Hres.
    destruct (Hres eq_refl) as (tc & Hupd1 & Hvar1 & Hbuilt).
    destruct (IH loc1 s1) as (loc' & added & Hret & Hupd & Hdesc & Hok).
    exists loc', (tc :: added). split; [done |]. split.
    { by rewrite Hupd, Hupd1, <- app_assoc. }
    split.
    + intros tc' [->|Htc']%elem_of_cons.
      * destruct Hbuilt as [Hd|Hold]; [| by right].
        left. exists t. split; [by left | done].
      * destruct (Hdesc tc' Htc') as [(t' & Ht' & Hd)|Hold].
        -- left. exists t'. split; [by right | done].
        -- rewrite Hvar1 in Hold. injection Hold as <-.
           destruct Hbuilt as [Hd|Hold]; [| by right].
           left. exists t. split; [by left | done].
    + intros t' [->|Ht']%elem_of_cons Htok.
      * destruct (pull_tool_ok config t loc s Htok)
          as (loc2 & tc2 & Hret2 & Hupd2 & _ & Hd2).
        rewrite Hstep in Hret2. injection Hret2 as <-.
        rewrite Hupd1 in Hupd2. apply app_inv_head in Hupd2.
        injection Hupd2 as <-.
        exists tc. split; [by left | by eapply describes_name].
      * destruct (Hok t' Ht' Htok) as (tc' & Htc' & Hname).
        exists tc'. split; [by right | done].
Qed.



End Materialisation.

(** The scenario of the specification: the registry answers 404 for
    ["weather"]; the two other tools are still materialised and nothing is
    raised. *)
Example weather_skipped :
  exists config mcp_config,
    (materialize market no_hash pip_ok "u" one_user).1
      = Return (config, mcp_config)
    /\ mcp_config !! "weather" = None
    /\ mcp_config !! "clock"
       = Some (Stdio "python" ["temp_tools/clock/clock.py"] ∅)
    /\ mcp_config !! "search" = Some (Sse (Some "http://localhost:8000/sse")).
Proof. eexists _, _. split; [reflexivity |]. by vm_compute. Qed.



(** C6, as stated, fails. After the login the cached version of
    ["clock"] equals the version of its manifest and its artifact is
    staged; materialising the unchanged configuration again requests the
    artifact again. *)
Lemma redownload_counterexample :
  tool_versions (loaded_config after_login "u") !! "clock"
    = m_version clock_manifest
  /\ bool_decide (artifact_path "clock" "clock.py" ∈ temp_tools after_login)
     = true
  /\ downloads (materialize market no_hash pip_ok "u" after_login).2
     = downloads after_login
       ++ [registry_url TOOL_MARKET_URL "clock" "clock.py"].
Proof. by vm_compute. Qed.

Lemma staging_cleared_every_run_witness :
  NoDup (omap (stdio_path market) (tools (loaded_config after_login "u")))
  /\ downloads (materialize market no_hash pip_ok "u" after_login).2
     = downloads after_login
       ++ omap (stdio_target market) (tools (loaded_config after_login "u")).
Proof.
  assert (H : NoDup (omap (stdio_path market)
                          (tools (loaded_config after_login "u")))).
  { vm_compute. apply NoDup_singleton. }
  split; [exact H |].
  exact (staging_cleared_every_run market no_hash pip_ok "u" after_login H).
Defined.

(** * Further properties *)

(** ** The reducer *)

Lemma red_then_ok (b : buffers) (k : buffers -> reduction) :
  red_then (red_ok b []) k = k b.
Proof. unfold red_then. simpl. by destruct (k b). Qed.

Lemma red_then_assoc (r : reduction) (k1 k2 : buffers -> reduction) :
  red_then (red_then r k1) k2 = red_then r (fun b => red_then (k1 b) k2).
Proof.
  unfold red_then. destruct (raised r) eqn:Hr; simpl; [by rewrite Hr |].
  destruct (raised (k1 (bufs r))) eqn:Hk; simpl; [by rewrite Hk |].
  by rewrite app_assoc.
Qed.

Lemma red_then_ext (r : reduction) (k1 k2 : buffers -> reduction) :
  (forall b, k1 b = k2 b) -> red_then r k1 = red_then r k2.
Proof. intros H. unfold red_then. by rewrite H. Qed.

Lemma for_each_app {A} (body : A -> buffers -> reduction) (l1 l2 : list A)
    (b : buffers) :
  for_each body (l1 ++ l2) b
    = red_then (for_each body l1 b) (for_each body l2).
Proof.
  revert b. induction l1 as [|x l1 IH]; intros b; simpl.
  - by rewrite red_then_ok.
  - rewrite red_then_assoc. by apply red_then_ext.
Qed.

(** The reduction of a stream depends on the sequence of the agent's
    messages only, not on how it is cut into chunks nor on the other
    chunks in between. *)
Lemma reduce_messages (cs : list chunk) (b : buffers) :
  for_each process_chunk cs b = for_each process_message (messages_of cs) b.
Proof.
  revert b. induction cs as [|c cs IH]; intros b; [done |].
  unfold messages_of. simpl. fold (messages_of cs).
  rewrite for_each_app.
  destruct c as [msgs|]; simpl.
  - by apply red_then_ext.
  - by rewrite !red_then_ok.
Qed.

Lemma messages_of_single (msgs : list message) :
  messages_of [AgentChunk msgs] = msgs.
Proof. unfold messages_of. simpl. apply app_nil_r. Qed.

(** X1. What a query yields depends only on the sequence of messages
    of the agent node and on how the stream ends: cutting the same messages
    into other chunks, or interleaving chunks of other nodes, changes
    nothing. *)
Theorem chunking_irrelevant (query thread_id : string) (timeout_seconds : Z)
    (run : agent_stream) (s : state) :
  generate query thread_id timeout_seconds run s
    = generate query thread_id timeout_seconds
        {| chunks := [AgentChunk (messages_of (chunks run))];
           ending := ending run |} s.
Proof.
  unfold generate. cbn [chunks ending].
  by rewrite !reduce_messages, messages_of_single.
Qed.

(** X2. In every query, whatever the stream does, the events are a run
    of text and tool events followed by at most one [Error] event: an
    error is never followed by another event and never occurs twice. *)
Theorem error_is_terminal (query thread_id : string) (timeout_seconds : Z)
    (run : agent_stream) (s : state) :
  exists body tail,
    events (generate query thread_id timeout_seconds run s).1 = body ++ tail
    /\ error_count body = 0
    /\ (tail = [] \/ exists msg, tail = [Error msg]).
Proof.
  pose proof (silent_chunks (chunks run) no_buffers) as Hsilent.
  destruct (generate_events query thread_id timeout_seconds run s)
    as [[msg Hev]|[Hev|[msg Hev]]]; simpl in Hev.
  - exists [], [Error msg]. rewrite Hev. eauto.
  - eexists _, []. rewrite Hev, app_nil_r. eauto.
  - eexists _, [Error msg]. rewrite Hev. eauto.
Qed.

(** X3. When an exception leaves the streaming block (raised by the
    agent or while a delivered message is reduced), the events already
    yielded are followed by one [Error] event and the history is not
    built. Its message carries [str(e)], except that every
    [TimeoutError], also one the agent itself raises, is reported as the
    request's timeout. *)
Theorem failure_law (query thread_id : string) (timeout_seconds : Z)
    (run : agent_stream) (s : state) (e : exn) :
  is_Some (agent s) ->
  block_exit (for_each process_chunk (chunks run) no_buffers) (ending run)
    = Some e ->
  events (generate query thread_id timeout_seconds run s).1
    = emitted (for_each process_chunk (chunks run) no_buffers)
      ++ [Error (failure_message timeout_seconds e)]
  /\ error_count (events (generate query thread_id timeout_seconds run s).1)
     = 1
  /\ history (generate query thread_id timeout_seconds run s).1 = None.
Proof.
  intros [a Ha] Hexit. unfold generate. rewrite Ha, Hexit.
  pose proof (silent_chunks (chunks run) no_buffers) as Hsilent.
  destruct e; simpl; rewrite error_count_app, Hsilent; done.
Qed.

Lemma failure_law_witness :
  is_Some (agent serving_state)
  /\ block_exit (for_each process_chunk (chunks crashed) no_buffers)
       (ending crashed) = Some (Exception "model overloaded")
  /\ events (generate "What is 2+2?" "t1" 120 crashed serving_state).1
     = [TextDelta "4";
        Error "Error occurred during query processing: model overloaded"].
Proof.
  assert (H1 : is_Some (agent serving_state)) by (by eexists).
  assert (H2 : block_exit (for_each process_chunk (chunks crashed) no_buffers)
                 (ending crashed) = Some (Exception "model overloaded"))
    by reflexivity.
  split; [exact H1 |]. split; [exact H2 |].
  exact (proj1 (failure_law "What is 2+2?" "t1" 120 crashed serving_state
                  _ H1 H2)).
Defined.

(** X4. On normal completion no [Error] is yielded, and the assistant
    and tool entries that the local history receives are exactly the last
    text payload and the last tool payload that were streamed (no entry
    for a channel on which nothing, or only empty text, was streamed). *)
Theorem completion_matches_stream (query thread_id : string)
    (timeout_seconds : Z) (run : agent_stream) (s : state) :
  is_Some (agent s) ->
  block_exit (for_each process_chunk (chunks run) no_buffers) (ending run)
    = None ->
  error_count (events (generate query thread_id timeout_seconds run s).1) = 0
  /\ history (generate query thread_id timeout_seconds run s).1
     = Some (thread s thread_id
             ++ [ {| role := "user"; text := query |} ]
             ++ (if decide (default "" (last (text_payloads
                     (events (generate query thread_id timeout_seconds
                                run s).1))) = "")
                 then []
                 else [ {| role := "assistant";
                           text := default "" (last (text_payloads
                             (events (generate query thread_id
                                        timeout_seconds run s).1))) |} ])
             ++ (if decide (default "" (last (tool_payloads
                     (events (generate query thread_id timeout_seconds
                                run s).1))) = "")
                 then []
                 else [ {| role := "assistant_tool";
                           text := default "" (last (tool_payloads
                             (events (generate query thread_id
                                        timeout_seconds run s).1))) |} ])).
Proof.
  intros Hagent Hexit.
  rewrite (completion_local_history _ _ _ _ _ Hagent Hexit).
  destruct Hagent as [a Ha].
  assert (Hev : events (generate query thread_id timeout_seconds run s).1
                = emitted (for_each process_chunk (chunks run) no_buffers)).
  { unfold generate. by rewrite Ha, Hexit. }
  rewrite Hev.
  destruct (text_channel_chunks (chunks run) no_buffers) as [_ Htext].
  destruct (tool_channel_chunks (chunks run) no_buffers) as [_ Htool].
  unfold text_payloads, tool_payloads. simpl in Htext, Htool.
  rewrite Htext, Htool. split; [apply silent_chunks | done].
Qed.

Lemma completion_matches_stream_witness :
  is_Some (agent serving_state)
  /\ block_exit (for_each process_chunk (chunks answer_4) no_buffers)
       (ending answer_4) = None
  /\ error_count
       (events (generate "What is 2+2?" "t1" 120 answer_4 serving_state).1)
     = 0.
Proof.
  assert (H1 : is_Some (agent serving_state)) by (by eexists).
  assert (H2 : block_exit (for_each process_chunk (chunks answer_4) no_buffers)
                 (ending answer_4) = None) by reflexivity.
  split; [exact H1 |]. split; [exact H2 |].
  exact (proj1 (completion_matches_stream "What is 2+2?" "t1" 120 answer_4
                  serving_state H1 H2)).
Defined.

(** ** What the materialisation leaves alone *)

Lemma same_process_refl (s : state) : same_process s s.
Proof. by repeat split. Qed.

Lemma same_process_trans (s1 s2 s3 : state) :
  same_process s1 s2 -> same_process s2 s3 -> same_process s1 s3.
Proof.
  intros (? & ? & ? & ? & ? & ?) (? & ? & ? & ? & ? & ?).
  repeat split; congruence.
Qed.

Lemma staged_from_refl (s : state) : staged_from s s.
Proof.
  split; [apply same_process_refl |]. exists []. by rewrite app_nil_r.
Qed.

Lemma staged_from_trans (s1 s2 s3 : state) :
  staged_from s1 s2 -> staged_from s2 s3 -> staged_from s1 s3.
Proof.
  intros [Hp1 (a1 & Ht1 & Hf1)] [Hp2 (a2 & Ht2 & Hf2)].
  split; [by eapply same_process_trans |].
  exists (a1 ++ a2). split; [by rewrite Ht2, Ht1, app_assoc |].
  by apply Forall_app.
Qed.

Lemma staged_from_temp_tools (f : gset string) (s : state) :
  staged_from s (set_temp_tools f s).
Proof.
  split; [by repeat split |]. exists []. simpl. by rewrite app_nil_r.
Qed.

Lemma staged_from_log (e : effect) (s : state) :
  staging_effect e -> staged_from s (log e s).2.
Proof.
  intros He. split; [by repeat split |]. exists [e]. split; [done |].
  by apply Forall_singleton.
Qed.

Section Frame.

Variable requests_get : string -> http_result.
Variable sha256_hexdigest : string -> string.
Variable pip_install : list string -> option string.

Lemma download_tool_staged (tool_name file_name base : string) (s : state) :
  staged_from s
    (download_tool requests_get sha256_hexdigest tool_name file_name base s).2.
Proof.
  pose proof (staged_from_log
                (ArtifactGet (registry_url base tool_name file_name)) s I)
    as Hlog.
  unfold download_tool, try_except, http_get, bind, lift, raise, ret, modify.
  destruct (log (ArtifactGet (registry_url base tool_name file_name)) s)
    as [[e|[]] s1]; simpl in Hlog |- *; [by destruct e |].
  destruct (requests_get _) as [msg|r]; simpl; [done |].
  destruct (raise_for_status_kind
              (registry_url base tool_name file_name) r)
    as [->|[msg ->]]; simpl; [| done].
  destruct (decide (status_code r = 200%Z)) as [_|_]; simpl; [| done].
  eapply staged_from_trans; [exact Hlog | apply staged_from_temp_tools].
Qed.

Lemma install_dependencies_staged (deps : list string) (s : state) :
  staged_from s (install_dependencies pip_install deps s).2.
Proof.
  unfold install_dependencies, bind, raise, ret.
  destruct deps as [|d deps]; [apply staged_from_refl |].
  pose proof (staged_from_log (PipInstall (d :: deps)) s I) as Hlog.
  destruct (log (PipInstall (d :: deps)) s) as [[e|[]] s1]; simpl in *;
    [done |].
  by destruct (pip_install (d :: deps)).
Qed.

Lemma prepare_tool_staged (config : user_config) (t : tool_ref)
    (m : manifest) (loc : locals) (s : state) :
  staged_from s
    (prepare_tool requests_get sha256_hexdigest pip_install config t m loc
       s).2.
Proof.
  assert (Hfetch : forall v f,
    staged_from s
      (let (r, s') := download_tool requests_get sha256_hexdigest (name t) f
                        (default TOOL_MARKET_URL (github_url t)) s in
       match r with
       | Raise e => (Raise e, s')
       | Return _ =>
           let (r0, s'0) := install_dependencies pip_install
                              (default [] (m_dependencies m)) s' in
           match r0 with
           | Raise e => (Raise e, s'0)
           | Return _ =>
               (Return (bind_config (stdio_config config (name t) f)
                          (<[name t:=v]> (l_tool_versions loc)) loc), s'0)
           end
       end).2).
  { intros v f.
    pose proof (download_tool_staged (name t) f
                  (default TOOL_MARKET_URL (github_url t)) s) as Hd.
    destruct (download_tool requests_get sha256_hexdigest (name t) f
                (default TOOL_MARKET_URL (github_url t)) s) as [[e|c] sd];
      simpl in *; [done |].
    pose proof (install_dependencies_staged
                  (default [] (m_dependencies m)) sd) as Hi.
    destruct (install_dependencies pip_install
                (default [] (m_dependencies m)) sd) as [[e|[]] si];
      simpl in *; by eapply staged_from_trans. }
  unfold prepare_tool.
  unfold bind, lift, subscript, gets, ret, raise.
  destruct (m_version m) as [v|]; [| apply staged_from_refl].
  destruct (m_transport m) as [tr|], (m_file m) as [f|];
    destruct (decide (v ≠ default "0.0.0" (l_tool_versions loc !! name t)));
    simpl; try apply staged_from_refl;
    destruct (decide (tr = "stdio")) as [Hstdio|Hstdio];
    destruct (decide (tr = "sse")) as [Hsse|Hsse];
    try destruct (bool_decide (artifact_path (name t) f ∈ temp_tools s));
    simpl; try apply staged_from_refl;
    try (destruct (l_tool_config loc); apply staged_from_refl);
    specialize (Hfetch v f);
    destruct (download_tool requests_get sha256_hexdigest (name t) f
                (default TOOL_MARKET_URL (github_url t)) s) as [[e|c] sd];
      simpl in *; try done;
    destruct (install_dependencies pip_install
                (default [] (m_dependencies m)) sd) as [[e|[]] si];
      simpl in *; done.
Qed.

End Frame.

Lemma staging_manifest_gets (added : list effect) :
  Forall staging_effect added -> manifest_gets added = [].
Proof.
  induction 1 as [|e added He _ IH]; [done |].
  unfold manifest_gets in *. by destruct e.
Qed.

Lemma staging_registry (added : list effect) :
  Forall staging_effect added -> Forall registry_effect added.
Proof. intros H. eapply Forall_impl; [exact H |]. by intros []. Qed.

Lemma registry_client_exits (added : list effect) :
  Forall registry_effect added -> client_exits added = [].
Proof.
  induction 1 as [|e added He _ IH]; [done |].
  unfold client_exits in *. by destruct e.
Qed.

Lemma registry_client_enters (added : list effect) :
  Forall registry_effect added -> client_enters added = [].
Proof.
  induction 1 as [|e added He _ IH]; [done |].
  unfold client_enters in *. by destruct e.
Qed.

Section Requests.

Variable requests_get : string -> http_result.
Variable sha256_hexdigest : string -> string.
Variable pip_install : list string -> option string.

(** One tool of the loop: one manifest request, then staging effects. *)
Lemma pull_tool_trace (config : user_config) (t : tool_ref) (loc : locals)
    (s : state) :
  same_process s
    (pull_tool requests_get sha256_hexdigest pip_install config t loc s).2
  /\ exists added,
       trace (pull_tool requests_get sha256_hexdigest pip_install config t
                loc s).2
         = trace s ++ ManifestGet (manifest_target t) :: added
       /\ Forall staging_effect added.
Proof.
  unfold pull_tool, bind, manifest_target. fold (base_of t).
  pose proof (fetch_tool_manifest_state requests_get (name t) (base_of t) s)
    as Hstate.
  destruct (fetch_tool_manifest requests_get (name t) (base_of t) s)
    as [[e|[m|]] s1]; simpl in Hstate; subst s1; cbv beta iota.
  - split; [by repeat split |]. exists []. by split.
  - destruct (prepare_tool_staged requests_get sha256_hexdigest pip_install
                config t m loc
                (log (ManifestGet
                        (registry_url (base_of t) (name t) "manifest.json"))
                   s).2)
      as [Hsame (added & Htrace & Hall)].
    simpl in Hsame, Htrace. split.
    + eapply same_process_trans; [| exact Hsame]. by repeat split.
    + exists added. split; [| done]. rewrite Htrace.
      by rewrite <- app_assoc.
  - split; [by repeat split |]. exists []. by split.
Qed.

(** The loop: the process is untouched, and the trace grows by effects
    of the registry client, among them one manifest request per tool, in
    the order of the list. *)
Lemma pull_tools_trace (config : user_config) (ts : list tool_ref)
    (loc : locals) (s : state) :
  same_process s
    (pull_tools requests_get sha256_hexdigest pip_install config ts loc s).2
  /\ exists added,
       trace (pull_tools requests_get sha256_hexdigest pip_install config ts
                loc s).2 = trace s ++ added
       /\ Forall registry_effect added
       /\ manifest_gets added = map manifest_target ts.
Proof.
  revert loc s. induction ts as [|t ts IH]; intros loc s.
  { split; [apply same_process_refl |]. exists []. simpl.
    by rewrite app_nil_r. }
  rewrite pull_tools_cons.
  destruct (pull_tool_trace config t loc s)
    as [Hsame1 (added1 & Htrace1 & Hall1)].
  destruct (IH (match (pull_tool requests_get sha256_hexdigest pip_install
                         config t loc s).1 with
                | Raise _ => loc
                | Return loc' => loc'
                end)
               (pull_tool requests_get sha256_hexdigest pip_install config t
                  loc s).2)
    as [Hsame2 (added2 & Htrace2 & Hall2 & Hgets2)].
  split; [by eapply same_process_trans |].
  exists (ManifestGet (manifest_target t) :: added1 ++ added2).
  split; [| split].
  - rewrite Htrace2, Htrace1. by rewrite <- app_assoc.
  - apply Forall_cons. split; [done |].
    apply Forall_app. split; [by apply staging_registry | done].
  - unfold manifest_gets in *. simpl. rewrite omap_app, Hgets2.
    fold (manifest_gets added1). by rewrite (staging_manifest_gets added1).
Qed.

(** The materialisation as a whole: the checkpointer, the global agent,
    the tool count and the MCP clients are untouched, and the trace grows
    as in the loop. *)
Lemma materialize_trace (user_id : string) (s : state) :
  checkpointer (materialize requests_get sha256_hexdigest pip_install
                  user_id s).2 = checkpointer s
  /\ agent (materialize requests_get sha256_hexdigest pip_install
              user_id s).2 = agent s
  /\ tool_count (materialize requests_get sha256_hexdigest pip_install
                   user_id s).2 = tool_count s
  /\ live_clients (materialize requests_get sha256_hexdigest pip_install
                     user_id s).2 = live_clients s
  /\ next_client (materialize requests_get sha256_hexdigest pip_install
                    user_id s).2 = next_client s
  /\ exists added,
       trace (materialize requests_get sha256_hexdigest pip_install
                user_id s).2 = trace s ++ added
       /\ Forall registry_effect added
       /\ manifest_gets added
          = map manifest_target (tools (loaded_config s user_id)).
Proof.
  unfold materialize, load_user_config, clear_temp_tools, save_user_config,
    loaded_config.
  unfold bind, gets, modify, ret. simpl.
  destruct (users_collection s !! user_id) as [config|]; simpl.
  - destruct (pull_tools_trace config (tools config) (start_locals config)
                (set_temp_tools ∅ s))
      as [(_ & ? & ? & ? & ? & ?) (added & Htrace & Hall & Hgets)].
    destruct (pull_tools requests_get sha256_hexdigest pip_install config
                (tools config) (start_locals config) (set_temp_tools ∅ s))
      as [[e|loc] s1]; simpl in *; repeat split; try done; by exists added.
  - repeat split. exists []. by rewrite app_nil_r.
Qed.

(** X5. Every run of the materialisation requests the manifest of
    every tool of the configuration exactly once, in the order of the
    list, whether the request fails or not: nothing is retried and no tool
    is passed over. *)
Theorem one_manifest_request_per_tool (user_id : string) (s : state) :
  manifest_gets
    (trace (materialize requests_get sha256_hexdigest pip_install
              user_id s).2)
    = manifest_gets (trace s)
      ++ map manifest_target (tools (loaded_config s user_id)).
Proof.
  destruct (materialize_trace user_id s)
    as (_ & _ & _ & _ & _ & added & -> & _ & <-).
  unfold manifest_gets. apply omap_app.
Qed.

End Requests.

(** ** The life cycle of the agent *)

Section Lifecycle.

Variable requests_get : string -> http_result.
Variable sha256_hexdigest : string -> string.
Variable pip_install : list string -> option string.
Variable mcp_enter : gmap string connection -> result (list string).
Variable mcp_exit : nat -> option exn.

(** The materialisation returns the loaded configuration with a new
    version table, and has stored it under the user's id. *)
Lemma materialize_result (user_id : string) (s : state) :
  exists versions mcp_config,
    (materialize requests_get sha256_hexdigest pip_install user_id s).1
      = Return (with_tool_versions (loaded_config s user_id) versions,
                mcp_config)
    /\ users_collection
         (materialize requests_get sha256_hexdigest pip_install user_id s).2
         !! user_id
       = Some (with_tool_versions (loaded_config s user_id) versions).
Proof.
  unfold materialize, load_user_config, clear_temp_tools, save_user_config,
    loaded_config.
  unfold bind, gets, modify, ret. simpl.
  destruct (users_collection s !! user_id) as [config|]; simpl.
  - destruct (pull_tools_spec requests_get sha256_hexdigest pip_install
                config (tools config) (start_locals config)
                (set_temp_tools ∅ s)) as (loc & added & Hret & _).
    destruct (pull_tools requests_get sha256_hexdigest pip_install config
                (tools config) (start_locals config) (set_temp_tools ∅ s))
      as [r s1]. simpl in Hret. subst r. simpl.
    eexists _, _. split; [done |]. apply lookup_insert_eq.
  - eexists _, _. split; [done |]. apply lookup_insert_eq.
Qed.

(** X6. Whatever the configuration and whatever fails,
    [initialize_agent] exits no MCP client and closes none: every client
    that was open before is still open afterwards, also the one of the
    agent it replaces. The checkpointer is not touched either. *)
Theorem initialize_agent_never_releases (user_id : string) (s : state) :
  client_exits
    (trace (initialize_agent requests_get sha256_hexdigest pip_install
              mcp_enter user_id s).2) = client_exits (trace s)
  /\ dom (live_clients s)
     ⊆ dom (live_clients (initialize_agent requests_get sha256_hexdigest
                            pip_install mcp_enter user_id s).2)
  /\ checkpointer (initialize_agent requests_get sha256_hexdigest pip_install
                     mcp_enter user_id s).2 = checkpointer s.
Proof.
  destruct (materialize_trace requests_get sha256_hexdigest pip_install
              user_id s)
    as (Hcp & _ & _ & Hlive & _ & added & Htrace & Hreg & _).
  destruct (materialize_result user_id s) as (versions & mcp & Hret & _).
  destruct (initialize_agent requests_get sha256_hexdigest pip_install
              mcp_enter user_id s) as [r s'] eqn:Hinit. simpl.
  unfold initialize_agent, bind in Hinit.
  destruct (materialize requests_get sha256_hexdigest pip_install user_id s)
    as [rm sm]. simpl in Hcp, Hlive, Htrace, Hret. subst rm.
  assert (Hexits : client_exits (trace sm) = client_exits (trace s)).
  { rewrite Htrace. unfold client_exits. rewrite omap_app.
    fold (client_exits added). rewrite (registry_client_exits added Hreg).
    apply app_nil_r. }
  unfold create_agent, new_client, client_aenter, log, bind, gets, modify,
    ret, raise in Hinit.
  destruct (bool_decide (mcp = ∅)); simpl in Hinit.
  - simplify_eq. simpl. by rewrite Hlive.
  - destruct (mcp_enter mcp) as [e|caps]; simpl in Hinit; simplify_eq; simpl.
    + by rewrite Hlive.
    + unfold client_exits in *. rewrite omap_app. simpl.
      rewrite app_nil_r. split; [done |]. split; [| done].
      rewrite dom_insert, Hlive. apply union_subseteq_r.
Qed.


(** X8. When [initialize_agent] returns, the global agent is a new
    agent built from the user's stored settings: its backend is selected
    from the stored model (["gpt-4o"] when none is stored), its prompt is
    the system prompt followed by the stored instructions, the tool count
    is the number of its tools, and its MCP client, if it has one, is a
    client created by this call and open. *)
Theorem initialization_uses_settings (user_id : string) (s : state) :
  (initialize_agent requests_get sha256_hexdigest pip_install mcp_enter
     user_id s).1 = Return tt ->
  exists a,
    agent (initialize_agent requests_get sha256_hexdigest pip_install
             mcp_enter user_id s).2 = Some a
    /\ ag_model a
       = select_model
           (default "gpt-4o" (selected_model (loaded_config s user_id)))
    /\ ag_prompt a = updated_prompt (loaded_config s user_id)
    /\ tool_count (initialize_agent requests_get sha256_hexdigest pip_install
                     mcp_enter user_id s).2 = Some (length (ag_tools a))
    /\ match ag_client a with
       | None => ag_tools a = []
       | Some id =>
           id = next_client s
           /\ is_Some (live_clients
                         (initialize_agent requests_get sha256_hexdigest
                            pip_install mcp_enter user_id s).2 !! id)
       end.
Proof.
  destruct (materialize_trace requests_get sha256_hexdigest pip_install
              user_id s) as (_ & _ & _ & _ & Hnext & _).
  destruct (materialize_result user_id s)
    as (versions & mcp & Hret & _).
  destruct (initialize_agent requests_get sha256_hexdigest pip_install
              mcp_enter user_id s) as [r s'] eqn:Hinit. simpl.
  unfold initialize_agent, bind in Hinit.
  destruct (materialize requests_get sha256_hexdigest pip_install user_id s)
    as [rm sm]. simpl in Hnext, Hret. subst rm.
  unfold create_agent, new_client, client_aenter, log, bind, gets, modify,
    ret, raise in Hinit.
  destruct (bool_decide (mcp = ∅)); simpl in Hinit.
  - simplify_eq. intros _. eexists. by repeat split.
  - destruct (mcp_enter mcp) as [e'|caps]; simpl in Hinit; simplify_eq;
      [done |].
    intros _. eexists. simpl. repeat split; try done.
    rewrite lookup_insert_eq. by eexists.
Qed.

End Lifecycle.


Lemma initialization_uses_settings_witness :
  (initialize_agent market no_hash pip_ok servers_up "u" one_user).1
    = Return tt
  /\ exists a,
       agent (initialize_agent market no_hash pip_ok servers_up "u"
                one_user).2 = Some a
       /\ ag_model a = ChatOpenAI "gpt-4o" 16000.
Proof.
  assert (H : (initialize_agent market no_hash pip_ok servers_up "u"
                 one_user).1 = Return tt) by (by vm_compute).
  split; [exact H |].
  destruct (initialization_uses_settings market no_hash pip_ok servers_up
              "u" one_user H) as (a & Ha & Hmodel & _).
  exists a. split; [exact Ha | exact Hmodel].
Defined.

Section Shutdown.

Variable mcp_exit : nat -> option exn.

(** X9. [shutdown] never raises and always leaves the process without
    an agent. It exits the client of the agent it drops, if the agent has
    one: when the exit succeeds the client is closed and this is the only
    effect, and when the exit raises the exception is swallowed and the
    client stays open. Without an agent, or at a second call, nothing
    changes. *)
Theorem shutdown_releases (s : state) :
  (shutdown mcp_exit s).1 = Return tt
  /\ agent (shutdown mcp_exit s).2 = None
  /\ shutdown mcp_exit (shutdown mcp_exit s).2
     = (Return tt, (shutdown mcp_exit s).2)
  /\ match agent s with
     | None => (shutdown mcp_exit s).2 = s
     | Some a =>
         match ag_client a with
         | None =>
             live_clients (shutdown mcp_exit s).2 = live_clients s
             /\ trace (shutdown mcp_exit s).2 = trace s
         | Some id =>
             match mcp_exit id with
             | None =>
                 live_clients (shutdown mcp_exit s).2
                   = delete id (live_clients s)
                 /\ trace (shutdown mcp_exit s).2 = trace s ++ [ClientExit id]
             | Some _ =>
                 live_clients (shutdown mcp_exit s).2 = live_clients s
                 /\ trace (shutdown mcp_exit s).2 = trace s
             end
         end
     end.
Proof.
  unfold shutdown, try_except, client_aexit, log, bind, gets, modify, ret,
    raise.
  simpl. destruct (agent s) as [a|] eqn:Ha; simpl.
  - destruct (ag_client a) as [id|]; simpl; [| done].
    destruct (mcp_exit id); simpl; done.
  - repeat split; try done. destruct s. simpl in *. by subst.
Qed.

End Shutdown.

(** ** The version table and the connections *)

Section Ledger.

Variable requests_get : string -> http_result.
Variable sha256_hexdigest : string -> string.
Variable pip_install : list string -> option string.

(** A prepared tool changes the version table at its own name only, and
    when its transport is supported the table then holds the version of
    its manifest (an absent entry reading as "0.0.0"). *)
Lemma prepare_tool_versions (config : user_config) (t : tool_ref)
    (m : manifest) (loc loc' : locals) (s : state) :
  (prepare_tool requests_get sha256_hexdigest pip_install config t m loc s).1
    = Return loc' ->
  (forall n, n <> name t ->
     l_tool_versions loc' !! n = l_tool_versions loc !! n)
  /\ (m_transport m = Some "stdio" \/ m_transport m = Some "sse" ->
      Some (default "0.0.0" (l_tool_versions loc' !! name t)) = m_version m).
Proof.
  unfold prepare_tool.
  unfold bind, lift, subscript, gets, ret, raise.
  destruct (m_version m) as [v|]; [| done].
  destruct (m_transport m) as [tr|], (m_file m) as [f|];
    destruct (decide (v ≠ default "0.0.0" (l_tool_versions loc !! name t)))
      as [Hv|Hv];
    simpl; try done;
    destruct (decide (tr = "stdio")) as [Hstdio|Hstdio];
    destruct (decide (tr = "sse")) as [Hsse|Hsse];
    try destruct (bool_decide (artifact_path (name t) f ∈ temp_tools s));
    simpl; try done;
    try (destruct (download_tool requests_get sha256_hexdigest (name t) f
                     (default TOOL_MARKET_URL (github_url t)) s)
           as [[e|c] sd]; simpl; [done |];
         destruct (install_dependencies pip_install
                     (default [] (m_dependencies m)) sd) as [[e|[]] si];
           simpl; [done |]);
    try (destruct (l_tool_config loc) as [tc0|] eqn:Hvar; simpl; [| done]);
    intros [= <-]; simpl;
    (split;
     [ intros n Hn; by rewrite ?lookup_insert_ne
     | intros [[= ->]|[= ->]]; rewrite ?lookup_insert_eq; simpl;
       try done; try (by apply dec_stable in Hv; rewrite Hv) ]).
Qed.

Lemma pull_tool_versions (config : user_config) (t : tool_ref)
    (loc loc' : locals) (s : state) :
  (pull_tool requests_get sha256_hexdigest pip_install config t loc s).1
    = Return loc' ->
  (forall n, n <> name t ->
     l_tool_versions loc' !! n = l_tool_versions loc !! n)
  /\ (tool_ok requests_get pip_install t ->
      Some (default "0.0.0" (l_tool_versions loc' !! name t))
        = manifest_version requests_get t).
Proof.
  unfold pull_tool, bind, manifest_version. fold (base_of t).
  pose proof (manifest_of_fetch requests_get t s) as Hm.
  destruct (fetch_tool_manifest requests_get (name t) (base_of t) s)
    as [[e|[m|]] s1]; simpl in *; [done | | done].
  intros [Hother Hown]%prepare_tool_versions. split; [done |].
  intros (m' & v & f & Hm' & _ & _ & Hok).
  rewrite (proj2 (Hm m) eq_refl) in Hm' |- *. injection Hm' as <-.
  apply Hown. destruct Hok as [(? & _)|?]; eauto.
Qed.

(** The loop changes the version table at the names of its tools only;
    when these names are distinct, the table ends with the manifest
    version of every tool for which all steps succeed. *)
Lemma pull_tools_versions (config : user_config) (ts : list tool_ref)
    (loc loc' : locals) (s : state) :
  (pull_tools requests_get sha256_hexdigest pip_install config ts loc s).1
    = Return loc' ->
  (forall n, n ∉ map name ts ->
     l_tool_versions loc' !! n = l_tool_versions loc !! n)
  /\ (NoDup (map name ts) ->
      forall t, t ∈ ts -> tool_ok requests_get pip_install t ->
        Some (default "0.0.0" (l_tool_versions loc' !! name t))
          = manifest_version requests_get t).
Proof.
  revert loc s. induction ts as [|t ts IH]; intros loc s.
  { simpl. intros [= <-]. split; [done |].
    intros _ t Ht. exfalso. by eapply elem_of_nil. }
  rewrite pull_tools_cons. intros Hret.
  destruct (IH _ _ Hret) as [Hother Hown]. clear IH Hret.
  pose proof (fun l => pull_tool_versions config t loc l s) as Hstep.
  pose proof (pull_tool_ok requests_get sha256_hexdigest pip_install config t
                loc s) as Hok.
  destruct (pull_tool requests_get sha256_hexdigest pip_install config t loc s)
    as [[e|loc1] s1]; simpl in *.
  - split.
    + intros n [_ Hnin]%not_elem_of_cons. by apply Hother.
    + intros [Hfresh Hnodup]%NoDup_cons t' [->|Ht']%elem_of_cons Htok;
        [| by apply Hown].
      by destruct (Hok Htok) as (? & ? & ? & _).
  - destruct (Hstep loc1 eq_refl) as [Hother1 Hown1]. split.
    + intros n [Hne Hnin]%not_elem_of_cons.
      rewrite (Hother n Hnin). by apply Hother1.
    + intros [Hfresh Hnodup]%NoDup_cons t' [->|Ht']%elem_of_cons Htok;
        [| by apply Hown].
      rewrite (Hother (name t) Hfresh). by apply Hown1.
Qed.

End Ledger.

Lemma connections_of_inv (updated : list tool_config) (n : string)
    (c : connection) :
  connections_of updated !! n = Some c ->
  exists tc, tc ∈ updated /\ tc_name tc = n /\ tc_connection tc = c.
Proof.
  induction updated as [|x updated IH] using rev_ind; [done |].
  unfold connections_of in *. rewrite foldl_snoc.
  destruct (decide (tc_name x = n)) as [<-|Hx].
  - rewrite lookup_insert_eq. intros [= <-].
    exists x. split; [apply elem_of_app; right; by left | done].
  - rewrite lookup_insert_ne by done. intros (tc & Htc & Hn & Hc)%IH.
    exists tc. split; [apply elem_of_app; by left | done].
Qed.

Section Saved.

Variable requests_get : string -> http_result.
Variable sha256_hexdigest : string -> string.
Variable pip_install : list string -> option string.

(** The materialisation in terms of its loop. *)
Lemma materialize_unfold (user_id : string) (s : state) :
  exists s0 loc,
    (pull_tools requests_get sha256_hexdigest pip_install
       (loaded_config s user_id) (tools (loaded_config s user_id))
       (start_locals (loaded_config s user_id)) s0).1 = Return loc
    /\ (materialize requests_get sha256_hexdigest pip_install user_id s).1
       = Return (with_tool_versions (loaded_config s user_id)
                   (l_tool_versions loc),
                 connections_of (l_updated_tools loc))
    /\ users_collection
         (materialize requests_get sha256_hexdigest pip_install user_id s).2
         !! user_id
       = Some (with_tool_versions (loaded_config s user_id)
                 (l_tool_versions loc)).
Proof.
  unfold materialize, load_user_config, clear_temp_tools, save_user_config,
    loaded_config.
  unfold bind, gets, modify, ret. simpl.
  destruct (users_collection s !! user_id) as [config|]; simpl.
  - exists (set_temp_tools ∅ s).
    destruct (pull_tools_spec requests_get sha256_hexdigest pip_install
                config (tools config) (start_locals config)
                (set_temp_tools ∅ s)) as (loc & added & Hret & _).
    exists loc. split; [done |].
    destruct (pull_tools requests_get sha256_hexdigest pip_install config
                (tools config) (start_locals config) (set_temp_tools ∅ s))
      as [r s1]. simpl in Hret. subst r. simpl.
    split; [done |]. apply lookup_insert_eq.
  - exists s, (start_locals default_config). split; [done |].
    split; [done |]. apply lookup_insert_eq.
Qed.


(** X11. A materialisation stores the user's document with the same
    tools, instructions, environment variables and model; in the version
    table it changes entries of the listed tools only, so the entry of a
    tool that is no longer listed is kept as it is. *)
Theorem materialization_keeps_settings (user_id : string) (s : state) :
  exists config,
    users_collection
      (materialize requests_get sha256_hexdigest pip_install user_id s).2
      !! user_id = Some config
    /\ tools config = tools (loaded_config s user_id)
    /\ instructions config = instructions (loaded_config s user_id)
    /\ env_vars config = env_vars (loaded_config s user_id)
    /\ selected_model config = selected_model (loaded_config s user_id)
    /\ forall n, n ∉ map name (tools (loaded_config s user_id)) ->
         tool_versions config !! n
           = tool_versions (loaded_config s user_id) !! n.
Proof.
  destruct (materialize_unfold user_id s) as (s0 & loc & Hloop & _ & Husers).
  eexists. split; [exact Husers |]. simpl. repeat split.
  by apply (pull_tools_versions requests_get sha256_hexdigest pip_install
              _ _ _ _ _ Hloop).
Qed.

(** X12. Every connection handed to the agent is the one built for a
    tool of the configuration whose manifest was fetched: a name that no
    listed tool carries, or whose manifests could not be fetched, has no
    connection. *)
Theorem connections_come_from_manifests (user_id : string) (s : state)
    (config : user_config) (mcp_config : gmap string connection)
    (n : string) (c : connection) :
  (materialize requests_get sha256_hexdigest pip_install user_id s).1
    = Return (config, mcp_config) ->
  mcp_config !! n = Some c ->
  exists t tc,
    t ∈ tools (loaded_config s user_id)
    /\ describes requests_get (loaded_config s user_id) t tc
    /\ name t = n /\ tc_connection tc = c.
Proof.
  destruct (materialize_unfold user_id s) as (s0 & loc & Hloop & -> & _).
  intros [= <- <-] (tc & Htc & Hname & Hconn)%connections_of_inv.
  destruct (pull_tools_spec requests_get sha256_hexdigest pip_install
              (loaded_config s user_id) (tools (loaded_config s user_id))
              (start_locals (loaded_config s user_id)) s0)
    as (loc' & added & Hret & Hupd & Hdesc & _).
  rewrite Hloop in Hret. injection Hret as <-. simpl in Hupd. subst added.
  destruct (Hdesc tc Htc) as [(t & Ht & Hd)|Hold]; [| done].
  exists t, tc. repeat split; try done.
  by rewrite <- (describes_name requests_get _ t tc Hd).
Qed.

End Saved.


Lemma connections_come_from_manifests_witness :
  exists config mcp_config,
    (materialize market no_hash pip_ok "u" one_user).1
      = Return (config, mcp_config)
    /\ mcp_config !! "clock"
       = Some (Stdio "python" ["temp_tools/clock/clock.py"] ∅)
    /\ exists t tc,
         t ∈ tools (loaded_config one_user "u")
         /\ describes market (loaded_config one_user "u") t tc
         /\ name t = "clock"
         /\ tc_connection tc
            = Stdio "python" ["temp_tools/clock/clock.py"] ∅.
Proof.
  destruct weather_skipped as (config & mcp_config & H1 & _ & H2 & _).
  exists config, mcp_config. split; [exact H1 |]. split; [exact H2 |].
  exact (connections_come_from_manifests market no_hash pip_ok "u" one_user
           config mcp_config "clock" _ H1 H2).
Defined.

(** ** The artifact download *)

Section Download.

Variable requests_get : string -> http_result.
Variable sha256_hexdigest : string -> string.


(** X14. A download that returns has staged exactly the artifact's file,
    under [temp_tools/<tool>/<file>]; a download that raises has staged
    nothing. In both cases the user documents, the agent and the clients
    are untouched. *)
Theorem download_tool_stages_on_success (tool_name file_name base : string)
    (s : state) :
  let run := download_tool requests_get sha256_hexdigest tool_name file_name
               base s in
  temp_tools run.2
    = match run.1 with
      | Return _ => {[ artifact_path tool_name file_name ]} ∪ temp_tools s
      | Raise _ => temp_tools s
      end
  /\ same_process s run.2.
Proof.
  unfold download_tool, try_except, http_get, bind, lift, raise, ret, modify,
    log.
  simpl.
  destruct (requests_get _) as [msg|r]; simpl; [by repeat split |].
  destruct (raise_for_status_kind
              (registry_url base tool_name file_name) r)
    as [->|[msg ->]]; simpl; [| by repeat split].
  destruct (decide (status_code r = 200%Z)) as [_|_]; simpl;
    by repeat split.
Qed.

End Download.

(** ** The user documents *)


(** X16. The first load of an unknown user stores the default document
    (no tools, no instructions, model ["gpt-4o"]) and returns it; a load
    of a known user returns the stored document and changes nothing. So a
    second load always returns what the first did and leaves the state of
    the first. No load touches another user's document. *)
Theorem load_user_config_settles (user_id : string) (s : state) :
  let first := load_user_config user_id s in
  first.1 = Return (loaded_config s user_id)
  /\ users_collection first.2 !! user_id = Some (loaded_config s user_id)
  /\ (is_Some (users_collection s !! user_id) -> first.2 = s)
  /\ load_user_config user_id first.2 = first
  /\ forall other, other <> user_id ->
       users_collection first.2 !! other = users_collection s !! other.
Proof.
  unfold load_user_config, loaded_config, modify, gets, bind, ret. simpl.
  destruct (users_collection s !! user_id) as [config|] eqn:Hu; simpl.
  - rewrite Hu. by repeat split.
  - rewrite lookup_insert_eq.
    split; [done |]. split; [done |]. split; [by intros [? ?] |].
    split; [done |]. intros other Hne. by rewrite lookup_insert_ne.
Qed.

(** ** The roles of a retrieved history *)

Lemma history_entries_roles (msgs : list ck_message) (es : list hist_entry) :
  history_entries msgs = Return es ->
  map role es = map role_of msgs.
Proof.
  revert es. induction msgs as [|msg msgs IH]; intros es; simpl.
  - by intros [= <-].
  - unfold history_entry at 1, role_of at 1.
    destruct (msg_body msg) as [str|items]; simpl.
    + destruct (history_entries msgs) as [e|es']; [done |]. simpl.
      intros [= <-]. simpl. by rewrite (IH es').
    + destruct (text_items items) as [e|ts]; [done |]. simpl.
      destruct (history_entries msgs) as [e|es']; [done |]. simpl.
      intros [= <-]. simpl. by rewrite (IH es').
Qed.

(** X17. Whatever the checkpointer holds, every entry of the history that
    [get_conversation_history] returns has the role ["user"] or
    ["assistant"]: the role ["assistant_tool"] that the [/ask] route
    appends to its own list never comes back from the store. The history
    is either empty or has exactly one entry per stored message, in the
    order of the messages, with the role ["user"] for the messages of type
    ["human"] only; it is never a part of the thread. *)
Theorem history_roles (cp : gmap string ck_state) (thread_id : string) :
  let h := get_conversation_history cp thread_id in
  Forall (fun e => role e = "user" \/ role e = "assistant") h
  /\ (h = []
      \/ exists st, cp !! thread_id = Some st
           /\ map role h = map role_of (default [] (ck_messages st))).
Proof.
  unfold get_conversation_history.
  destruct (cp !! thread_id) as [st|]; [| by split; [| left]].
  destruct (history_entries (default [] (ck_messages st))) as [e|es] eqn:Hes;
    [by split; [| left] |].
  pose proof (history_entries_roles _ _ Hes) as Hroles.
  split; [| right; by exists st].
  apply Forall_forall. intros e He.
  assert (Hin : role e ∈ map role es) by (by apply list_elem_of_fmap_2).
  rewrite Hroles in Hin. apply list_elem_of_fmap in Hin as (msg & -> & _).
  unfold role_of. case_decide; auto.
Qed.

(** ** The settings route *)

(** A form field contributes the variable [v] exactly when its key is
    ["env_" +:+ v]. *)
Lemma env_field_spec (k x v y : string) :
  (if String.prefix "env_" k then Some (string_drop 4 k, x) else None)
    = Some (v, y)
  <-> k = "env_" +:+ v /\ x = y.
Proof.
  split.
  - destruct (String.prefix "env_" k) eqn:Hp; [| done].
    apply prefix_starts_with in Hp as [rest ->].
    change (string_drop 4 ("env_" +:+ rest)) with rest.
    by intros [= -> ->].
  - intros [-> ->].
    replace (String.prefix "env_" ("env_" +:+ v)) with true; [done |].
    symmetry. apply prefix_starts_with. by exists v.
Qed.

Lemma env_fields_NoDup (l : list (string * string)) :
  NoDup l.*1 ->
  NoDup (omap (fun kv : string * string =>
                 if String.prefix "env_" kv.1
                 then Some (string_drop 4 kv.1, kv.2) else None) l).*1.
Proof.
  induction l as [|[k x] l IH]; simpl; [constructor |].
  intros [Hk Hl]%NoDup_cons. specialize (IH Hl).
  destruct (String.prefix "env_" k) eqn:Hp; [| done]. simpl.
  apply NoDup_cons. split; [| done].
  intros ([v y] & Hv & Hin)%list_elem_of_fmap. simpl in Hv.
  apply list_elem_of_omap in Hin as ([k' x'] & Hin & Hf).
  cbn [fst snd] in Hf. apply env_field_spec in Hf as [-> ->].
  apply prefix_starts_with in Hp as [rest ->].
  change (rest = v) in Hv. subst rest.
  apply Hk. apply list_elem_of_fmap. by exists ("env_" +:+ v, y).
Qed.

(** The variables read from a form: the variable [v] has the value of the
    field ["env_" +:+ v], and is absent when the form has no such field. *)
Lemma form_env_vars_lookup (form : gmap string string) (v : string) :
  form_env_vars form !! v = form !! ("env_" +:+ v).
Proof.
  apply option_eq. intros y. unfold form_env_vars.
  rewrite <- elem_of_list_to_map
    by apply env_fields_NoDup, NoDup_fst_map_to_list.
  rewrite list_elem_of_omap. split.
  - intros ([k x] & Hin & Hf). cbn [fst snd] in Hf.
    apply env_field_spec in Hf as [-> ->].
    by apply elem_of_map_to_list in Hin.
  - intros Hy. exists ("env_" +:+ v, y). split.
    + by apply elem_of_map_to_list.
    + cbn [fst snd]. by apply env_field_spec.
Qed.

(** X18. Submitting the page of the environment variables for a tool
    appends the tool, with the registry address of the form, after the
    tools already listed, and stores for it exactly the variables of the
    form: the variable [v] has the value of the field [env_v], and there
    is no variable without such a field, whatever was stored for the tool
    before. The variables of the other tools, the instructions, the model
    and the version table are unchanged. *)
Theorem submit_env_vars_effect (user_id tool_name base : string)
    (form : gmap string string) (s : state) :
  form !! "tool_name" = Some tool_name ->
  form !! "github_url" = Some base ->
  let config := loaded_config s user_id in
  let run := submit_env_vars user_id form s in
  let stored := loaded_config run.2 user_id in
  run.1 = Return (Rendered (Some "Tool added successfully") None)
  /\ tools stored
     = tools config
       ++ [ {| name := tool_name; github_url := Some base; url := None |} ]
  /\ (exists vars, env_vars stored !! tool_name = Some vars
        /\ forall v, vars !! v = form !! ("env_" +:+ v))
  /\ (forall other, other <> tool_name ->
        env_vars stored !! other = env_vars config !! other)
  /\ instructions stored = instructions config
  /\ selected_model stored = selected_model config
  /\ tool_versions stored = tool_versions config.
Proof.
  intros Hname Hbase.
  unfold submit_env_vars, load_user_config, save_user_config, loaded_config,
    bind, lift, gets, modify, ret.
  simpl. rewrite Hname, Hbase.
  destruct (users_collection s !! user_id) as [config|] eqn:Hu; simpl;
    rewrite lookup_insert_eq; simpl.
  - split; [done |]. split; [done |]. split.
    + exists (form_env_vars form). split; [by rewrite lookup_insert_eq |].
      apply form_env_vars_lookup.
    + split; [| done]. intros other Hne. by rewrite lookup_insert_ne.
  - split; [done |]. split; [done |]. split.
    + exists (form_env_vars form). split; [by rewrite lookup_insert_eq |].
      apply form_env_vars_lookup.
    + split; [| done]. intros other Hne. by rewrite lookup_insert_ne.
Qed.

Lemma submit_env_vars_effect_witness :
  weather_form !! "tool_name" = Some "weather"
  /\ weather_form !! "github_url" = Some "https://example.org/market"
  /\ exists vars,
       env_vars (loaded_config (submit_env_vars "u" weather_form one_user).2
                   "u") !! "weather" = Some vars
       /\ vars !! "API_KEY" = Some "secret"
       /\ vars !! "REGION" = Some "eu"
       /\ vars !! "tool_name" = None.
Proof.
  assert (H1 : weather_form !! "tool_name" = Some "weather")
    by (by vm_compute).
  assert (H2 : weather_form !! "github_url"
               = Some "https://example.org/market") by (by vm_compute).
  split; [exact H1 |]. split; [exact H2 |].
  destruct (submit_env_vars_effect "u" "weather" "https://example.org/market"
              weather_form one_user H1 H2)
    as (_ & _ & (vars & Hvars & Hv) & _).
  exists vars. split; [exact Hvars |].
  rewrite !Hv. repeat split; by vm_compute.
Defined.

Lemma load_user_config_run (user_id : string) (s : state) :
  exists s0,
    load_user_config user_id s = (Return (loaded_config s user_id), s0)
    /\ users_collection s0 !! user_id = Some (loaded_config s user_id)
    /\ agent s0 = agent s.
Proof.
  unfold load_user_config, loaded_config, modify, gets, bind, ret. simpl.
  destruct (users_collection s !! user_id) as [config|] eqn:Hu; simpl.
  - by exists s.
  - eexists. split; [done |]. split; [apply lookup_insert_eq | done].
Qed.

Lemma listed_Exists (tool_name : string) (l : list tool_ref) :
  Exists (fun t => name t = tool_name) l <-> tool_name ∈ map name l.
Proof.
  rewrite Exists_exists, list_elem_of_fmap.
  split; intros (t & H1 & H2); exists t; by split.
Qed.

Lemma filter_unlisted (tool_name : string) (l : list tool_ref) :
  tool_name ∉ map name l ->
  filter (fun t => name t ≠ tool_name) l = l.
Proof.
  induction l as [|t l IH]; [done |]. simpl.
  intros [Ht Hl]%not_elem_of_cons.
  rewrite filter_cons_True by done. by rewrite (IH Hl).
Qed.

(** X19. Removing a tool that is listed removes every entry of that name
    from the tool list, keeps the other tools in their order, and deletes
    the tool's environment variables; the variables of the other tools,
    the instructions and the model stay, and so does the whole version
    table: the version recorded for the removed tool is not cleaned up.
    Removing a tool that is not listed changes nothing in the user's
    document and answers with the error ["Error removing tool: Tool
    <name> not found in configuration"]. Neither case raises. *)
Theorem remove_tool_effect (user_id tool_name : string) (s : state) :
  let config := loaded_config s user_id in
  let run := remove_tool user_id tool_name s in
  let stored := loaded_config run.2 user_id in
  if decide (tool_name ∈ map name (tools config)) then
    run.1 = Return (Rendered
                      (Some ("Tool " +:+ tool_name
                               +:+ " removed successfully")) None)
    /\ (tool_name ∉ map name (tools stored))
    /\ sublist (tools stored) (tools config)
    /\ (forall t, t ∈ tools config -> name t <> tool_name ->
          t ∈ tools stored)
    /\ env_vars stored !! tool_name = None
    /\ (forall other, other <> tool_name ->
          env_vars stored !! other = env_vars config !! other)
    /\ tool_versions stored = tool_versions config
    /\ instructions stored = instructions config
    /\ selected_model stored = selected_model config
  else
    run.1 = Return (Rendered None
                      (Some ("Error removing tool: Tool " +:+ tool_name
                               +:+ " not found in configuration")))
    /\ stored = config.
Proof.
  cbv zeta. unfold remove_tool, bind.
  destruct (load_user_config_run user_id s) as (s0 & -> & Hu0 & _). simpl.
  remember (loaded_config s user_id) as config eqn:Hconfig.
  destruct (decide (tool_name ∈ map name (tools config))) as [Hin|Hnot].
  - rewrite bool_decide_eq_true_2 by (by apply listed_Exists).
    unfold save_user_config, modify, ret, loaded_config. simpl.
    rewrite lookup_insert_eq. simpl.
    split; [done |]. split.
    { intros (t & Hname & [Hne _]%list_elem_of_filter)%list_elem_of_fmap.
      by apply Hne. }
    split; [apply sublist_filter |]. split.
    { intros t Ht Hne. by apply list_elem_of_filter. }
    split; [apply lookup_delete_eq |]. split; [| done].
    intros other Hne. by apply lookup_delete_ne.
  - rewrite bool_decide_eq_false_2 by (by rewrite listed_Exists).
    unfold ret, loaded_config. simpl. by rewrite Hu0.
Qed.

(** X20. Adding a tool through the page of the environment variables and
    then removing it restores the user's document, when the tool was
    neither listed nor had variables stored before. *)
Theorem submit_then_remove (user_id tool_name base : string)
    (form : gmap string string) (s : state) :
  form !! "tool_name" = Some tool_name ->
  form !! "github_url" = Some base ->
  tool_name ∉ map name (tools (loaded_config s user_id)) ->
  env_vars (loaded_config s user_id) !! tool_name = None ->
  let added := (submit_env_vars user_id form s).2 in
  let run := remove_tool user_id tool_name added in
  run.1 = Return (Rendered
                    (Some ("Tool " +:+ tool_name
                             +:+ " removed successfully")) None)
  /\ tool_name ∈ map name (tools (loaded_config added user_id))
  /\ loaded_config run.2 user_id = loaded_config s user_id.
Proof.
  intros Hname Hbase Hnew Hvars. cbv zeta.
  unfold submit_env_vars, bind.
  destruct (load_user_config_run user_id s) as (s0 & -> & Hu0 & _). simpl.
  remember (loaded_config s user_id) as config eqn:Hconfig.
  unfold lift. rewrite Hname, Hbase. simpl.
  unfold save_user_config, modify, ret. simpl.
  unfold remove_tool, load_user_config, bind, gets, ret, loaded_config.
  simpl. rewrite !lookup_insert_eq. simpl.
  assert (Hlisted : tool_name
                    ∈ map name (tools config
                                  ++ [ {| name := tool_name;
                                          github_url := Some base;
                                          url := None |} ])).
  { rewrite map_app. apply elem_of_app. right. simpl. left. }
  rewrite bool_decide_eq_true_2 by (by apply listed_Exists).
  unfold save_user_config, modify, ret. simpl.
  split; [done |]. split; [done |].
  rewrite lookup_insert_eq. simpl.
  rewrite filter_app, (filter_unlisted _ _ Hnew).
  rewrite filter_cons_False by (simpl; by intros H; apply H).
  rewrite filter_nil, app_nil_r, (delete_insert_id _ _ _ Hvars).
  by destruct config.
Qed.

Lemma submit_then_remove_witness :
  weather_form !! "tool_name" = Some "weather"
  /\ weather_form !! "github_url" = Some "https://example.org/market"
  /\ ("weather" ∉ map name (tools (loaded_config idle_state "u")))
  /\ env_vars (loaded_config idle_state "u") !! "weather" = None
  /\ loaded_config
       (remove_tool "u" "weather"
          (submit_env_vars "u" weather_form idle_state).2).2 "u"
     = loaded_config idle_state "u".
Proof.
  assert (H1 : weather_form !! "tool_name" = Some "weather")
    by (by vm_compute).
  assert (H2 : weather_form !! "github_url"
               = Some "https://example.org/market") by (by vm_compute).
  assert (H3 : "weather" ∉ map name (tools (loaded_config idle_state "u"))).
  { apply (bool_decide_unpack _). by vm_compute. }
  assert (H4 : env_vars (loaded_config idle_state "u") !! "weather" = None)
    by (by vm_compute).
  split; [exact H1 |]. split; [exact H2 |]. split; [exact H3 |].
  split; [exact H4 |].
  exact (proj2 (proj2 (submit_then_remove "u" "weather"
                         "https://example.org/market" weather_form
                         idle_state H1 H2 H3 H4))).
Defined.

Section ApplySettings.

Variable requests_get : string -> http_result.
Variable sha256_hexdigest : string -> string.
Variable pip_install : list string -> option string.
Variable mcp_enter : gmap string connection -> result (list string).

(** What a run of [initialize_agent] leaves: the user's document with a
    new version table, and either a new agent built from that document
    or, when it raises, the agent that was there. *)
Lemma initialize_agent_outcome (user_id : string) (s : state) :
  let run := initialize_agent requests_get sha256_hexdigest pip_install
               mcp_enter user_id s in
  (exists versions,
     users_collection run.2 !! user_id
       = Some (with_tool_versions (loaded_config s user_id) versions))
  /\ match run.1 with
     | Return _ =>
         exists a,
           agent run.2 = Some a
           /\ ag_model a
              = select_model
                  (default "gpt-4o"
                     (selected_model (loaded_config s user_id)))
           /\ ag_prompt a = updated_prompt (loaded_config s user_id)
     | Raise _ => agent run.2 = agent s
     end.
Proof.
  cbv zeta.
  destruct (materialize_trace requests_get sha256_hexdigest pip_install
              user_id s) as (_ & Hagent & _).
  destruct (materialize_result requests_get sha256_hexdigest pip_install
              user_id s) as (versions & mcp & Hret & Husers).
  destruct (initialize_agent requests_get sha256_hexdigest pip_install
              mcp_enter user_id s) as [r s'] eqn:Hinit. simpl.
  unfold initialize_agent, bind in Hinit.
  destruct (materialize requests_get sha256_hexdigest pip_install user_id s)
    as [rm sm]. simpl in Hagent, Hret, Husers. subst rm.
  unfold create_agent, new_client, client_aenter, log, bind, gets, modify,
    ret, raise in Hinit.
  destruct (bool_decide (mcp = ∅)); simpl in Hinit.
  - simplify_eq. simpl. split; [by eexists |]. eexists. by repeat split.
  - destruct (mcp_enter mcp) as [e'|caps]; simpl in Hinit; simplify_eq;
      simpl; (split; [by eexists |]); [done |].
    eexists. by repeat split.
Qed.

(** X21. Applying the settings stores the submitted model and
    instructions in the user's document, with the tools and their
    environment variables as they were, whether or not the agent can be
    rebuilt. When it answers, it redirects to the chat and the global
    agent is a new agent with the backend of the submitted model and the
    system prompt followed by the submitted instructions. When it raises,
    the new settings are stored all the same but the agent of the process
    is still the one that was there. *)
Theorem apply_settings_effect (user_id new_model new_instructions : string)
    (s : state) :
  let config := loaded_config s user_id in
  let run := apply_settings requests_get sha256_hexdigest pip_install
               mcp_enter user_id new_model new_instructions s in
  let stored := loaded_config run.2 user_id in
  selected_model stored = Some new_model
  /\ instructions stored = new_instructions
  /\ tools stored = tools config
  /\ env_vars stored = env_vars config
  /\ match run.1 with
     | Return r =>
         r = ToChat
         /\ exists a,
              agent run.2 = Some a
              /\ ag_model a = select_model new_model
              /\ ag_prompt a
                 = if decide (new_instructions = "") then SYSTEM_PROMPT
                   else SYSTEM_PROMPT +:+ newline +:+ newline
                          +:+ new_instructions
     | Raise _ => agent run.2 = agent s
     end.
Proof.
  cbv zeta. unfold apply_settings, bind.
  destruct (load_user_config_run user_id s) as (s0 & -> & Hu0 & Hagent0).
  simpl. remember (loaded_config s user_id) as config eqn:Hconfig.
  unfold save_user_config, modify. simpl.
  match goal with
  | |- context [initialize_agent _ _ _ _ _ ?s1] =>
      pose proof (initialize_agent_outcome user_id s1) as Hrun;
      assert (Hcfg : loaded_config s1 user_id
                     = {| tools := tools config;
                          instructions := new_instructions;
                          env_vars := env_vars config;
                          selected_model := Some new_model;
                          tool_versions := tool_versions config |})
        by (unfold loaded_config; simpl; by rewrite lookup_insert_eq);
      destruct (initialize_agent requests_get sha256_hexdigest pip_install
                  mcp_enter user_id s1) as [r s2]
  end.
  cbv zeta in Hrun. rewrite Hcfg in Hrun. simpl in Hrun.
  destruct Hrun as [[versions Hstored] Hout].
  unfold updated_prompt in Hout. simpl in Hout.
  unfold ret, loaded_config.
  destruct r as [e|[]]; simpl; rewrite Hstored; simpl.
  - repeat split. by rewrite Hout.
  - by repeat split.
Qed.

End ApplySettings.
